(** * Clan registry of the PythonBot: a shallow embedding of [ClanManager]

    The registry of [src/Bot.py] is one Python object, [clan_data], holding two
    dictionaries that every operation mutates in place.  The embedding threads
    that object through a small state-and-exception monad: a call either
    returns a value or raises, and in both cases hands back the registry as
    the call left it (a raise does not undo the mutations made before it). *)

From stdpp Require Import gmap strings list fin_maps pretty.

Local Open Scope Z_scope.
Local Open Scope string_scope.

(** ** Data model *)

(** The value stored under a clan name:
    [{"leader": .., "members": [..], "mods": [..], "coleaders": [..]}]. *)
Record Clan := mkClan {
  leader : Z;
  members : list Z;
  mods : list Z;
  coleaders : list Z
}.

(** The value stored under a player key: [{"clan": .., "role": ..}]. *)
Record Player := mkPlayer {
  clan : string;
  role : string
}.

(** [self.clan_data]: [{"clans": {..}, "players": {..}}].  The keys of
    ["players"] are [str(player_id)]. *)
Record clan_data := mkData {
  clans : gmap string Clan;
  players : gmap string Player
}.

(** [load_data] when no snapshot file exists. *)
Definition empty_data : clan_data := mkData ∅ ∅.

(** Python's [str] on an [int]. *)
Definition str (n : Z) : string := pretty n.

(** The two exceptions the dictionary and list primitives can raise. *)
Inductive exn := KeyError | ValueError.

(** ** The monad *)

Inductive result (A : Type) :=
| Val (a : A) (s : clan_data)
| Exc (e : exn) (s : clan_data).
Arguments Val {A} a s.
Arguments Exc {A} e s.

Definition M (A : Type) : Type := clan_data → result A.

Definition ret {A} (a : A) : M A := λ s, Val a s.
Definition bind {A B} (m : M A) (k : A → M B) : M B := λ s,
  match m s with
  | Val a s' => k a s'
  | Exc e s' => Exc e s'
  end.

Declare Scope py_scope.
Delimit Scope py_scope with py.
Notation "x <- m ;; k" := (bind m (λ x, k))
  (at level 100, m at next level, right associativity) : py_scope.
Notation "m ;;; k" := (bind m (λ _, k))
  (at level 100, right associativity) : py_scope.
Local Open Scope py_scope.

(** The registry a call leaves behind, whether it returned or raised. *)
Definition state_of {A} (r : result A) : clan_data :=
  match r with
  | Val _ s => s
  | Exc _ s => s
  end.

(** ** Python primitives on lists *)

(** [x in l]. *)
Definition contains (x : Z) (l : list Z) : bool := bool_decide (x ∈ l).

(** [l.remove(x)]: drops the first occurrence; [None] is [ValueError]. *)
Fixpoint list_remove (x : Z) (l : list Z) : option (list Z) :=
  match l with
  | [] => None
  | y :: l' =>
      if bool_decide (y = x) then Some l'
      else cons y <$> list_remove x l'
  end.

(** [l.append(x)]. *)
Definition list_append (x : Z) (l : list Z) : list Z := l ++ [x].

(** The statements that mutate one list of a clan object. *)
Definition members_remove (x : Z) (c : Clan) : option Clan :=
  (λ l, mkClan (leader c) l (mods c) (coleaders c)) <$> list_remove x (members c).
Definition mods_remove (x : Z) (c : Clan) : option Clan :=
  (λ l, mkClan (leader c) (members c) l (coleaders c)) <$> list_remove x (mods c).
Definition coleaders_remove (x : Z) (c : Clan) : option Clan :=
  (λ l, mkClan (leader c) (members c) (mods c) l) <$> list_remove x (coleaders c).
Definition members_append (x : Z) (c : Clan) : option Clan :=
  Some (mkClan (leader c) (list_append x (members c)) (mods c) (coleaders c)).
Definition mods_append (x : Z) (c : Clan) : option Clan :=
  Some (mkClan (leader c) (members c) (list_append x (mods c)) (coleaders c)).
Definition coleaders_append (x : Z) (c : Clan) : option Clan :=
  Some (mkClan (leader c) (members c) (mods c) (list_append x (coleaders c))).

(** [if x in clan["mods"]: clan["mods"].remove(x)], and the same statement on
    ["coleaders"]. *)
Definition mods_discard (x : Z) (c : Clan) : option Clan :=
  if contains x (mods c) then mods_remove x c else Some c.
Definition coleaders_discard (x : Z) (c : Clan) : option Clan :=
  if contains x (coleaders c) then coleaders_remove x c else Some c.

(** ** Python primitives on the two dictionaries *)

(** [clan_name in self.clan_data["clans"]]. *)
Definition clans_contains (clan_name : string) : M bool := λ s,
  Val (bool_decide (is_Some (clans s !! clan_name))) s.

(** [self.clan_data["clans"][clan_name]]. *)
Definition clans_getitem (clan_name : string) : M Clan := λ s,
  match clans s !! clan_name with
  | Some c => Val c s
  | None => Exc KeyError s
  end.

(** [self.clan_data["clans"][clan_name] = c]. *)
Definition clans_setitem (clan_name : string) (c : Clan) : M unit := λ s,
  Val tt (mkData (<[clan_name := c]> (clans s)) (players s)).

(** [del self.clan_data["clans"][clan_name]]. *)
Definition clans_delitem (clan_name : string) : M unit := λ s,
  match clans s !! clan_name with
  | Some _ => Val tt (mkData (delete clan_name (clans s)) (players s))
  | None => Exc KeyError s
  end.

(** A statement on the clan object bound by
    [clan = self.clan_data["clans"][clan_name]].  The local [clan] is an alias
    of the object stored in the dictionary, and a clan object is stored under
    one name only, so a statement on the alias is a statement on the entry. *)
Definition on_clan (clan_name : string) (stmt : Clan → option Clan) : M unit := λ s,
  match clans s !! clan_name with
  | None => Exc KeyError s
  | Some c =>
      match stmt c with
      | None => Exc ValueError s
      | Some c' => Val tt (mkData (<[clan_name := c']> (clans s)) (players s))
      end
  end.

(** [key in self.clan_data["players"]]. *)
Definition players_contains (key : string) : M bool := λ s,
  Val (bool_decide (is_Some (players s !! key))) s.

(** [self.clan_data["players"][key]]. *)
Definition players_getitem (key : string) : M Player := λ s,
  match players s !! key with
  | Some p => Val p s
  | None => Exc KeyError s
  end.

(** [self.clan_data["players"][key] = p]. *)
Definition players_setitem (key : string) (p : Player) : M unit := λ s,
  Val tt (mkData (clans s) (<[key := p]> (players s))).

(** [del self.clan_data["players"][key]]. *)
Definition players_delitem (key : string) : M unit := λ s,
  match players s !! key with
  | Some _ => Val tt (mkData (clans s) (delete key (players s)))
  | None => Exc KeyError s
  end.

(** [self.clan_data["players"][key]["role"] = r]. *)
Definition players_set_role (key : string) (r : string) : M unit := λ s,
  match players s !! key with
  | Some p => Val tt (mkData (clans s) (<[key := mkPlayer (clan p) r]> (players s)))
  | None => Exc KeyError s
  end.

(** [for x in l: body(x)]. *)
Fixpoint for_each (l : list Z) (body : Z → M unit) : M unit :=
  match l with
  | [] => ret tt
  | x :: l' => body x ;;; for_each l' body
  end.

(** [save_data] rewrites the snapshot file from the registry and leaves the
    registry itself as it is. *)
Definition save_data : M unit := ret tt.

(** ** ClanManager *)

Section ClanManager.

(** Python's built-in [hash] on strings. *)
Variable hash : string → Z.

Definition find_player_id_by_name (name : string) : Z :=
  hash name `mod` 1000000.

Definition create_clan (leader_id : Z) (clan_name : string) : M (bool * string) :=
  taken <- clans_contains clan_name ;;
  if taken then ret (false, "Clan name already exists") else
  clans_setitem clan_name (mkClan leader_id [leader_id] [] []) ;;;
  players_setitem (str leader_id) (mkPlayer clan_name "Leader") ;;;
  save_data ;;;
  ret (true, "Clan '" +:+ clan_name +:+ "' created successfully!").

Definition get_player_clan (player_id : Z) : M (option string) := λ s,
  Val (clan <$> players s !! str player_id) s.

Definition get_player_role (player_id : Z) : M string := λ s,
  Val (default "Member" (role <$> players s !! str player_id)) s.

Definition is_leader (player_id : Z) (clan_name : string) : M bool :=
  c <- clans_getitem clan_name ;;
  ret (bool_decide (leader c = player_id)).

Definition is_coleader (player_id : Z) (clan_name : string) : M bool :=
  c <- clans_getitem clan_name ;;
  ret (contains player_id (coleaders c)).

Definition is_mod (player_id : Z) (clan_name : string) : M bool :=
  c <- clans_getitem clan_name ;;
  ret (contains player_id (mods c)).

Definition has_permission (player_id : Z) (clan_name action : string) : M bool :=
  l <- is_leader player_id clan_name ;;
  if l then ret true else
  role <- get_player_role player_id ;;
  if bool_decide (action = "kick") then
    ret (bool_decide (role ∈ ["Leader"; "Co-Leader"; "Mod"]))
  else if bool_decide (action = "invite") then
    ret (bool_decide (role ∈ ["Leader"; "Co-Leader"]))
  else if bool_decide (action = "promote_demote") then
    ret (bool_decide (role ∈ ["Leader"; "Co-Leader"]))
  else ret false.

Definition kick_member (kicker_id : Z) (target_name clan_name : string)
  : M (bool * string) :=
  let target_id := find_player_id_by_name target_name in
  if bool_decide (target_id = 0) then ret (false, "Player not found") else
  if bool_decide (target_id = kicker_id) then ret (false, "You cannot kick yourself") else
  clan <- clans_getitem clan_name ;;
  if negb (contains target_id (members clan)) then
    ret (false, "Player is not in your clan") else
  allowed <- has_permission kicker_id clan_name "kick" ;;
  if negb allowed then ret (false, "You don't have permission to kick members") else
  target_leads <- is_leader target_id clan_name ;;
  if target_leads then ret (false, "You cannot kick the clan leader") else
  on_clan clan_name (members_remove target_id) ;;;
  on_clan clan_name (mods_discard target_id) ;;;
  on_clan clan_name (coleaders_discard target_id) ;;;
  recorded <- players_contains (str target_id) ;;
  (if recorded then players_delitem (str target_id) else ret tt) ;;;
  save_data ;;;
  ret (true, "Successfully kicked " +:+ target_name +:+ " from the clan").

Definition invite_member (inviter_id : Z) (target_name clan_name : string)
  : M (bool * string) :=
  let target_id := find_player_id_by_name target_name in
  if bool_decide (target_id = 0) then ret (false, "Player not found") else
  allowed <- has_permission inviter_id clan_name "invite" ;;
  if negb allowed then ret (false, "You don't have permission to invite members") else
  recorded <- players_contains (str target_id) ;;
  if recorded then ret (false, "Player is already in a clan") else
  _ <- clans_getitem clan_name ;;
  on_clan clan_name (members_append target_id) ;;;
  players_setitem (str target_id) (mkPlayer clan_name "Member") ;;;
  save_data ;;;
  ret (true, "Successfully invited " +:+ target_name +:+ " to the clan").

(** The loop shared by [disband_clan] and [delete_clan]:
    [if str(member_id) in players: del players[str(member_id)]]. *)
Definition forget_member (member_id : Z) : M unit :=
  recorded <- players_contains (str member_id) ;;
  if recorded then players_delitem (str member_id) else ret tt.

Definition disband_clan (leader_id : Z) (clan_name : string) : M (bool * string) :=
  leads <- is_leader leader_id clan_name ;;
  if negb leads then ret (false, "Only the clan leader can disband the clan") else
  clan <- clans_getitem clan_name ;;
  let clan_members := members clan in
  for_each clan_members forget_member ;;;
  clans_delitem clan_name ;;;
  save_data ;;;
  ret (true, "Clan '" +:+ clan_name +:+ "' has been disbanded").

(** [save_data()] and the final [return True, ...] follow the [if] in the
    source; here they close each branch that falls through to them. *)
Definition promote_member (promoter_id : Z) (target_name clan_name role : string)
  : M (bool * string) :=
  let target_id := find_player_id_by_name target_name in
  if bool_decide (target_id = 0) then ret (false, "Player not found") else
  allowed <- has_permission promoter_id clan_name "promote_demote" ;;
  if negb allowed then ret (false, "You don't have permission to promote members") else
  _ <- clans_getitem clan_name ;;
  current_role <- get_player_role target_id ;;
  if bool_decide (role = "Mod") then
    if negb (bool_decide (current_role = "Member")) then
      ret (false, "Player is already " +:+ current_role)
    else
      on_clan clan_name (mods_append target_id) ;;;
      players_set_role (str target_id) "Mod" ;;;
      save_data ;;;
      ret (true, "Successfully promoted " +:+ target_name +:+ " to " +:+ role)
  else if bool_decide (role = "Co-Leader") then
    if bool_decide (current_role = "Member") then
      on_clan clan_name (mods_append target_id) ;;;
      on_clan clan_name (coleaders_append target_id) ;;;
      players_set_role (str target_id) "Co-Leader" ;;;
      save_data ;;;
      ret (true, "Successfully promoted " +:+ target_name +:+ " to " +:+ role)
    else if bool_decide (current_role = "Mod") then
      on_clan clan_name (mods_remove target_id) ;;;
      on_clan clan_name (coleaders_append target_id) ;;;
      players_set_role (str target_id) "Co-Leader" ;;;
      save_data ;;;
      ret (true, "Successfully promoted " +:+ target_name +:+ " to " +:+ role)
    else
      ret (false, "Player is already " +:+ current_role)
  else
    save_data ;;;
    ret (true, "Successfully promoted " +:+ target_name +:+ " to " +:+ role).

(** As in [promote_member], the two statements after the [if] close the
    branches that reach them. *)
Definition demote_member (demoter_id : Z) (target_name clan_name : string)
  : M (bool * string) :=
  let target_id := find_player_id_by_name target_name in
  if bool_decide (target_id = 0) then ret (false, "Player not found") else
  allowed <- has_permission demoter_id clan_name "promote_demote" ;;
  if negb allowed then ret (false, "You don't have permission to demote members") else
  _ <- clans_getitem clan_name ;;
  current_role <- get_player_role target_id ;;
  if bool_decide (current_role = "Co-Leader") then
    on_clan clan_name (coleaders_remove target_id) ;;;
    on_clan clan_name (mods_append target_id) ;;;
    players_set_role (str target_id) "Mod" ;;;
    save_data ;;;
    ret (true, "Successfully demoted " +:+ target_name)
  else if bool_decide (current_role = "Mod") then
    on_clan clan_name (mods_remove target_id) ;;;
    players_set_role (str target_id) "Member" ;;;
    save_data ;;;
    ret (true, "Successfully demoted " +:+ target_name)
  else
    ret (false, "Cannot demote a regular member").

Definition force_kick (target_name : string) : M (bool * string) :=
  let target_id := find_player_id_by_name target_name in
  if bool_decide (target_id = 0) then ret (false, "Player not found") else
  recorded <- players_contains (str target_id) ;;
  if negb recorded then ret (false, "Player is not in any clan") else
  record <- players_getitem (str target_id) ;;
  let clan_name := clan record in
  _ <- clans_getitem clan_name ;;
  on_clan clan_name (members_remove target_id) ;;;
  on_clan clan_name (mods_discard target_id) ;;;
  on_clan clan_name (coleaders_discard target_id) ;;;
  players_delitem (str target_id) ;;;
  save_data ;;;
  ret (true, "Force kicked " +:+ target_name +:+ " from " +:+ clan_name).

Definition force_join (target_name clan_name : string) : M (bool * string) :=
  let target_id := find_player_id_by_name target_name in
  if bool_decide (target_id = 0) then ret (false, "Player not found") else
  known <- clans_contains clan_name ;;
  if negb known then ret (false, "Clan not found") else
  recorded <- players_contains (str target_id) ;;
  (if recorded then
     record <- players_getitem (str target_id) ;;
     let old_clan_name := clan record in
     _ <- clans_getitem old_clan_name ;;
     on_clan old_clan_name (members_remove target_id) ;;;
     on_clan old_clan_name (mods_discard target_id) ;;;
     on_clan old_clan_name (coleaders_discard target_id)
   else ret tt) ;;;
  _ <- clans_getitem clan_name ;;
  on_clan clan_name (members_append target_id) ;;;
  players_setitem (str target_id) (mkPlayer clan_name "Member") ;;;
  save_data ;;;
  ret (true, "Force joined " +:+ target_name +:+ " to " +:+ clan_name).

Definition delete_clan (clan_name : string) : M (bool * string) :=
  known <- clans_contains clan_name ;;
  if negb known then ret (false, "Clan not found") else
  clan <- clans_getitem clan_name ;;
  let clan_members := members clan in
  for_each clan_members forget_member ;;;
  clans_delitem clan_name ;;;
  save_data ;;;
  ret (true, "Clan '" +:+ clan_name +:+ "' has been deleted").

(** ** Calls and call sequences *)

(** One call of a registry operation, with its arguments. *)
Inductive op :=
| CreateClan (leader_id : Z) (clan_name : string)
| KickMember (kicker_id : Z) (target_name clan_name : string)
| InviteMember (inviter_id : Z) (target_name clan_name : string)
| DisbandClan (leader_id : Z) (clan_name : string)
| PromoteMember (promoter_id : Z) (target_name clan_name role : string)
| DemoteMember (demoter_id : Z) (target_name clan_name : string)
| ForceKick (target_name : string)
| ForceJoin (target_name clan_name : string)
| DeleteClan (clan_name : string).

Definition exec (o : op) : M (bool * string) :=
  match o with
  | CreateClan leader_id clan_name => create_clan leader_id clan_name
  | KickMember kicker_id target_name clan_name =>
      kick_member kicker_id target_name clan_name
  | InviteMember inviter_id target_name clan_name =>
      invite_member inviter_id target_name clan_name
  | DisbandClan leader_id clan_name => disband_clan leader_id clan_name
  | PromoteMember promoter_id target_name clan_name role =>
      promote_member promoter_id target_name clan_name role
  | DemoteMember demoter_id target_name clan_name =>
      demote_member demoter_id target_name clan_name
  | ForceKick target_name => force_kick target_name
  | ForceJoin target_name clan_name => force_join target_name clan_name
  | DeleteClan clan_name => delete_clan clan_name
  end.

(** The registry after one call.  The process keeps the object a raising call
    leaves behind: the next call sees it. *)
Definition step (s : clan_data) (o : op) : clan_data := state_of (exec o s).

(** The registry after a sequence of calls. *)
Definition run (ops : list op) (s : clan_data) : clan_data := foldl step s ops.

End ClanManager.

(** * Vocabulary of the properties *)

(** The role [get_player_role] reports: the stored one, or ["Member"] for a
    player without a record. *)
Definition role_of (s : clan_data) (player_id : Z) : string :=
  default "Member" (role <$> players s !! str player_id).

(** What [has_permission] answers in an existing clan [c]. *)
Definition permitted (s : clan_data) (c : Clan) (player_id : Z) (action : string)
  : bool :=
  bool_decide (leader c = player_id) ||
  (if bool_decide (action = "kick") then
     bool_decide (role_of s player_id ∈ ["Leader"; "Co-Leader"; "Mod"])
   else if bool_decide (action = "invite") then
     bool_decide (role_of s player_id ∈ ["Leader"; "Co-Leader"])
   else if bool_decide (action = "promote_demote") then
     bool_decide (role_of s player_id ∈ ["Leader"; "Co-Leader"])
   else false).

(** The list [l.remove(x)] leaves when it does not raise, and [l] itself when
    guarded by [if x in l]. *)
Definition drop_first (x : Z) (l : list Z) : list Z :=
  default l (list_remove x l).

(** The same two effects told on the lists themselves.  [first_removed x l l']:
    [l'] is [l] with the first occurrence of [x] cut out, what [l.remove(x)]
    leaves of a list that holds [x].  [discarded x l l']: what
    [if x in l: l.remove(x)] leaves, the first occurrence cut out of a list
    that holds [x] and a list without [x] kept. *)
Definition first_removed (x : Z) (l l' : list Z) : Prop :=
  ∃ l1 l2 : list Z, l = (l1 ++ x :: l2)%list ∧ (x ∉ l1) ∧ l' = (l1 ++ l2)%list.
Definition discarded (x : Z) (l l' : list Z) : Prop :=
  (x ∈ l → first_removed x l l') ∧ (x ∉ l → l' = l).

(** The clan object after [t] was taken off its three lists, and after [t]
    was appended to its members. *)
Definition without (t : Z) (c : Clan) : Clan :=
  mkClan (leader c) (drop_first t (members c)) (drop_first t (mods c))
    (drop_first t (coleaders c)).
Definition with_member (t : Z) (c : Clan) : Clan :=
  mkClan (leader c) (members c ++ [t]) (mods c) (coleaders c).

(** The loop of [disband_clan] and [delete_clan] on the players dictionary. *)
Definition forget (l : list Z) (ps : gmap string Player) : gmap string Player :=
  foldl (λ ps member_id, delete (str member_id) ps) ps l.

(** The registries the operations produce: a clan was created, a player left
    clan [n], a player joined clan [n], clan [n] was dissolved, and the lists
    of clan [n] and the stored role of a player were changed. *)
Definition after_create (l : Z) (n : string) (s : clan_data) : clan_data :=
  mkData (<[n := mkClan l [l] [] []]> (clans s))
         (<[str l := mkPlayer n "Leader"]> (players s)).
Definition after_leave (t : Z) (n : string) (c : Clan) (s : clan_data) : clan_data :=
  mkData (<[n := without t c]> (clans s)) (delete (str t) (players s)).
Definition after_join (t : Z) (n : string) (c : Clan) (s : clan_data) : clan_data :=
  mkData (<[n := with_member t c]> (clans s))
         (<[str t := mkPlayer n "Member"]> (players s)).
Definition after_dissolve (n : string) (c : Clan) (s : clan_data) : clan_data :=
  mkData (delete n (clans s)) (forget (members c) (players s)).
Definition after_regrade (t : Z) (n : string) (c' : Clan) (r : string)
    (s : clan_data) : clan_data :=
  mkData (<[n := c']> (clans s))
         (alter (λ p, mkPlayer (clan p) r) (str t) (players s)).

(** What C2 asks of one clan. *)
Definition clan_consistent (c : Clan) : Prop :=
  leader c ∈ members c ∧
  (∀ p, p ∈ mods c → p ∉ coleaders c) ∧
  (leader c ∉ mods c) ∧ (leader c ∉ coleaders c) ∧
  (∀ p, p ∈ mods c → p ∈ members c) ∧
  (∀ p, p ∈ coleaders c → p ∈ members c).

Definition clans_consistent (s : clan_data) : Prop :=
  ∀ n c, clans s !! n = Some c → clan_consistent c.

(** What C3 asks: no player id is in the members of two clans. *)
Definition unique_membership (s : clan_data) : Prop :=
  ∀ p n1 n2 c1 c2,
    clans s !! n1 = Some c1 → clans s !! n2 = Some c2 →
    p ∈ members c1 → p ∈ members c2 → n1 = n2.

(** Every member of a clan has a record naming that clan, and no members list
    names a player twice. *)
Definition roster_sound (s : clan_data) : Prop :=
  (∀ n c p, clans s !! n = Some c → p ∈ members c →
            clan <$> players s !! str p = Some n) ∧
  (∀ n c, clans s !! n = Some c → NoDup (members c)).

(** The stored role [r] of player [p] agrees with the lists of clan [c]. *)
Definition role_matches (c : Clan) (p : Z) (r : string) : Prop :=
  (r = "Leader" ↔ p = leader c) ∧
  (r = "Co-Leader" ↔ p ∈ coleaders c) ∧
  (r = "Mod" ↔ p ∈ mods c).

(** Every clan is consistent and lists nobody twice, stored roles agree with
    the lists, and every record names an existing clan the player is in. *)
Definition ranks_sound (s : clan_data) : Prop :=
  (∀ n c, clans s !! n = Some c →
          clan_consistent c ∧ NoDup (mods c) ∧ NoDup (coleaders c)) ∧
  (∀ n c p r, clans s !! n = Some c → p ∈ members c →
              players s !! str p = Some r → role_matches c p (role r)) ∧
  (∀ p r, players s !! str p = Some r →
          ∃ c, clans s !! clan r = Some c ∧ p ∈ members c).

(** The calls a sequence is restricted to.  [creator_is_clanless]: a clan is
    only created by a caller without a player record, the check the command
    layer makes before it calls [create_clan]. *)
Definition creator_is_clanless (s : clan_data) (o : op) : bool :=
  match o with
  | CreateClan leader_id _ => bool_decide (players s !! str leader_id = None)
  | _ => true
  end.

(** A sequence of calls in which every call passes the check [ok] in the
    registry it is made in. *)
Fixpoint guarded_run (hash : string → Z) (ok : clan_data → op → bool)
    (ops : list op) (s : clan_data) : bool :=
  match ops with
  | [] => true
  | o :: ops' => ok s o && guarded_run hash ok ops' (step hash s o)
  end.

(** The calls the registry was designed for: a clan is created by a caller
    without a player record; a target whose role reads Member is promoted only
    to Mod and only in the clan whose members list it (a target role outside
    Mod and Co-Leader changes nothing and is let through); the staff
    operations [force_kick] and [force_join], which do not look at the clan
    leader, are not pointed at a player whose role reads Leader. *)
Definition within_design (hash : string → Z) (s : clan_data) (o : op) : bool :=
  match o with
  | CreateClan leader_id _ => bool_decide (players s !! str leader_id = None)
  | PromoteMember _ target_name clan_name to_role =>
      let target_id := find_player_id_by_name hash target_name in
      if bool_decide (role_of s target_id = "Member") then
        (bool_decide (to_role = "Mod") &&
         match clans s !! clan_name with
         | Some c => contains target_id (members c)
         | None => false
         end)
        || (bool_decide (to_role ≠ "Mod") && bool_decide (to_role ≠ "Co-Leader"))
      else true
  | ForceKick target_name | ForceJoin target_name _ =>
      bool_decide (role_of s (find_player_id_by_name hash target_name) ≠ "Leader")
  | _ => true
  end.

(** ** Data of the worked examples *)

(** A stand-in for Python's [hash] in the worked examples: the length of the
    name, so that a one-letter name resolves to player 1, a two-letter name to
    player 2, and the empty name is not found. *)
Definition length_hash (name : string) : Z := Z.of_nat (String.length name).

(** The registry used by the worked examples: clan ["A"] led by player 1. *)
Definition clan_A : clan_data := run length_hash [CreateClan 1 "A"] empty_data.

(** Clan ["A"] led by player 1, after player 2 (named ["bo"]) was invited. *)
Definition clan_A_bo : clan_data :=
  run length_hash [CreateClan 1 "A"; InviteMember 1 "bo" "A"] empty_data.

(** The same clan after ["bo"] was promoted to Mod. *)
Definition clan_A_mod : clan_data :=
  run length_hash
    [CreateClan 1 "A"; InviteMember 1 "bo" "A"; PromoteMember 1 "bo" "A" "Mod"]
    empty_data.


(** Clan ["A"] led by player 1 with the mods ["cat"], ["bo"] and ["dave"]
    (players 3, 2 and 4): [members] is [[1; 2; 3; 4]] and [mods] is
    [[3; 2; 4]].  Then the same registry with a second clan ["B"] led by
    player 5. *)
Definition staffed_ops : list op :=
  [CreateClan 1 "A"; InviteMember 1 "bo" "A"; InviteMember 1 "cat" "A";
   InviteMember 1 "dave" "A"; PromoteMember 1 "cat" "A" "Mod";
   PromoteMember 1 "bo" "A" "Mod"; PromoteMember 1 "dave" "A" "Mod"].
Definition clan_A_staffed : clan_data := run length_hash staffed_ops empty_data.
Definition two_clans : clan_data :=
  run length_hash (staffed_ops ++ [CreateClan 5 "B"]) empty_data.

(** * The command layer: [ClanBot]

    Each slash-command handler reads the caller's id off the interaction,
    calls the manager and sends one message back.  A handler is modelled by
    the message it sends; when the manager call raises, so does the handler,
    and nothing is sent. *)

(** The truth value Python gives the result of [get_player_clan]: [None] and
    the empty string are false. *)
Definition truthy (clan_name : option string) : bool :=
  match clan_name with
  | Some n => negb (bool_decide (n = ""))
  | None => false
  end.

Module ClanBot.
Section ClanBot.
Variable hash : string → Z.

Definition create_clan (user_id : Z) (name : string) : M string :=
  current <- get_player_clan user_id ;;
  if truthy current then ret "You are already in a clan!" else
  result <- create_clan user_id name ;;
  ret (snd result).

Definition kick_member (user_id : Z) (player_name : string) : M string :=
  clan_name <- get_player_clan user_id ;;
  match clan_name with
  | Some clan_name =>
      if bool_decide (clan_name = "") then ret "You are not in a clan!" else
      result <- kick_member hash user_id player_name clan_name ;;
      ret (snd result)
  | None => ret "You are not in a clan!"
  end.

Definition invite_member (user_id : Z) (player_name : string) : M string :=
  clan_name <- get_player_clan user_id ;;
  match clan_name with
  | Some clan_name =>
      if bool_decide (clan_name = "") then ret "You are not in a clan!" else
      result <- invite_member hash user_id player_name clan_name ;;
      ret (snd result)
  | None => ret "You are not in a clan!"
  end.

Definition disband_clan (user_id : Z) : M string :=
  clan_name <- get_player_clan user_id ;;
  match clan_name with
  | Some clan_name =>
      if bool_decide (clan_name = "") then ret "You are not in a clan!" else
      result <- disband_clan user_id clan_name ;;
      ret (snd result)
  | None => ret "You are not in a clan!"
  end.

Definition promote_member (user_id : Z) (player_name role : string) : M string :=
  clan_name <- get_player_clan user_id ;;
  match clan_name with
  | Some clan_name =>
      if bool_decide (clan_name = "") then ret "You are not in a clan!" else
      result <- promote_member hash user_id player_name clan_name role ;;
      ret (snd result)
  | None => ret "You are not in a clan!"
  end.

Definition demote_member (user_id : Z) (player_name : string) : M string :=
  clan_name <- get_player_clan user_id ;;
  match clan_name with
  | Some clan_name =>
      if bool_decide (clan_name = "") then ret "You are not in a clan!" else
      result <- demote_member hash user_id player_name clan_name ;;
      ret (snd result)
  | None => ret "You are not in a clan!"
  end.

Definition force_kick (player_name : string) : M string :=
  result <- force_kick hash player_name ;;
  ret (snd result).

Definition force_join (player_name clan_name : string) : M string :=
  result <- force_join hash player_name clan_name ;;
  ret (snd result).

Definition delete_clan (clan_name : string) : M string :=
  result <- delete_clan clan_name ;;
  ret (snd result).

(** One slash command, with the id of the user who issued it. *)
Inductive command :=
| Create (user_id : Z) (name : string)
| Kick (user_id : Z) (player_name : string)
| Invite (user_id : Z) (player_name : string)
| Disband (user_id : Z)
| Promote (user_id : Z) (player_name role : string)
| Demote (user_id : Z) (player_name : string)
| ForceKickCmd (player_name : string)
| ForceJoinCmd (player_name clan_name : string)
| DeleteCmd (clan_name : string).

Definition handle (c : command) : M string :=
  match c with
  | Create user_id name => create_clan user_id name
  | Kick user_id player_name => kick_member user_id player_name
  | Invite user_id player_name => invite_member user_id player_name
  | Disband user_id => disband_clan user_id
  | Promote user_id player_name role => promote_member user_id player_name role
  | Demote user_id player_name => demote_member user_id player_name
  | ForceKickCmd player_name => force_kick player_name
  | ForceJoinCmd player_name clan_name => force_join player_name clan_name
  | DeleteCmd clan_name => delete_clan clan_name
  end.

(** The registry after a sequence of commands; as for [run], the registry a
    raising handler leaves is the one the next command sees. *)
Definition serve (cmds : list command) (s : clan_data) : clan_data :=
  foldl (λ s c, state_of (handle c s)) s cmds.

End ClanBot.
End ClanBot.

(** ** Vocabulary of the further properties *)

(** The manager call a command makes in registry [s], if it makes one. *)
Definition op_of (s : clan_data) (c : ClanBot.command) : option op :=
  let own_clan user_id (call : string → op) :=
    match clan <$> players s !! str user_id with
    | Some n => if bool_decide (n = "") then None else Some (call n)
    | None => None
    end in
  match c with
  | ClanBot.Create user_id name =>
      if truthy (clan <$> players s !! str user_id) then None
      else Some (CreateClan user_id name)
  | ClanBot.Kick user_id player_name =>
      own_clan user_id (KickMember user_id player_name)
  | ClanBot.Invite user_id player_name =>
      own_clan user_id (InviteMember user_id player_name)
  | ClanBot.Disband user_id => own_clan user_id (DisbandClan user_id)
  | ClanBot.Promote user_id player_name role =>
      own_clan user_id (λ n, PromoteMember user_id player_name n role)
  | ClanBot.Demote user_id player_name =>
      own_clan user_id (DemoteMember user_id player_name)
  | ClanBot.ForceKickCmd player_name => Some (ForceKick player_name)
  | ClanBot.ForceJoinCmd player_name clan_name =>
      Some (ForceJoin player_name clan_name)
  | ClanBot.DeleteCmd clan_name => Some (DeleteClan clan_name)
  end.

(** No create command of the sequence names its clan [""]. *)
Definition names_nonempty (cmds : list ClanBot.command) : Prop :=
  ∀ user_id name, ClanBot.Create user_id name ∈ cmds → name ≠ "".

(** No clan is named [""] and no record names the clan [""]. *)
Definition no_empty_name (s : clan_data) : Prop :=
  clans s !! "" = None ∧ ∀ key r, players s !! key = Some r → clan r ≠ "".

(** The staff operations that move a player whatever its rank. *)
Definition staff_move (o : op) : bool :=
  match o with
  | ForceKick _ | ForceJoin _ _ => true
  | _ => false
  end.

(** The operations that add a clan to the registry or take one out. *)
Definition opens_or_closes (o : op) : bool :=
  match o with
  | CreateClan _ _ | DisbandClan _ _ | DeleteClan _ => true
  | _ => false
  end.

(** The operations that only change ranks. *)
Definition regrades (o : op) : bool :=
  match o with
  | PromoteMember _ _ _ _ | DemoteMember _ _ _ => true
  | _ => false
  end.

(** The clan of a clan-scoped call. *)
Definition clan_of_op (o : op) : option string :=
  match o with
  | KickMember _ _ n | InviteMember _ _ n | DisbandClan _ n
  | PromoteMember _ _ n _ | DemoteMember _ _ n => Some n
  | _ => None
  end.

(** Every leader is among the members of the clan. *)
Definition leaders_present (s : clan_data) : Prop :=
  ∀ n c, clans s !! n = Some c → leader c ∈ members c.

(** Every record names a clan that exists and lists the player. *)
Definition records_placed (s : clan_data) : Prop :=
  ∀ p r, players s !! str p = Some r →
         ∃ c, clans s !! clan r = Some c ∧ p ∈ members c.

(** What can make a call raise in registry [s]: nothing for [create_clan]
    and [delete_clan]; an unknown clan name for [kick_member],
    [invite_member] and [disband_clan]; for the staff moves, a target whose
    record names a clan that does not exist or does not list the target.  No
    bound is given for [promote_member] and [demote_member]. *)
Definition may_raise (hash : string → Z) (s : clan_data) (o : op) : Prop :=
  match o with
  | CreateClan _ _ | DeleteClan _ => False
  | KickMember _ _ n | InviteMember _ _ n | DisbandClan _ n => clans s !! n = None
  | ForceKick target_name | ForceJoin target_name _ =>
      let t := find_player_id_by_name hash target_name in
      ∃ r, players s !! str t = Some r ∧
           ∀ c, clans s !! clan r = Some c → t ∉ members c
  | PromoteMember _ _ _ _ | DemoteMember _ _ _ => True
  end.

(** The commands that change ranks. *)
Definition regrading_command (c : ClanBot.command) : bool :=
  match c with
  | ClanBot.Promote _ _ _ | ClanBot.Demote _ _ => true
  | _ => false
  end.


(** * Properties *)

Example scenario1 :
  exec length_hash (CreateClan 7 "Raiders") empty_data
  = Val (true, "Clan 'Raiders' created successfully!")
        (mkData {[ "Raiders" := mkClan 7 [7] [] [] ]}
                {[ "7" := mkPlayer "Raiders" "Leader" ]}).
Proof. vm_compute. reflexivity. Qed.

Example scenario2 :
  exec length_hash (CreateClan 1 "A") clan_A
  = Val (false, "Clan name already exists") clan_A.
Proof. vm_compute. reflexivity. Qed.

Example scenario3 :
  exec length_hash (PromoteMember 1 "bo" "A" "Mod") clan_A_mod
  = Val (false, "Player is already Mod") clan_A_mod.
Proof. vm_compute. reflexivity. Qed.

Example scenario4_member_cannot_kick :
  let s := run length_hash [InviteMember 1 "cat" "A"] clan_A_bo in
  exec length_hash (KickMember 2 "cat" "A") s
  = Val (false, "You don't have permission to kick members") s.
Proof. vm_compute. reflexivity. Qed.

Example scenario4_mod_can_kick :
  let s := run length_hash [InviteMember 1 "cat" "A"] clan_A_mod in
  ∃ s', exec length_hash (KickMember 2 "cat" "A") s
        = Val (true, "Successfully kicked cat from the clan") s'
        ∧ players s' !! str 3 = None.
Proof. eexists. split; vm_compute; reflexivity. Qed.

Example scenario5 :
  let s := run length_hash [PromoteMember 1 "bo" "A" "Co-Leader"] clan_A_mod in
  exec length_hash (KickMember 2 "a" "A") s
  = Val (false, "You cannot kick the clan leader") s.
Proof. vm_compute. reflexivity. Qed.

Example scenario6 :
  exec length_hash (DisbandClan 2 "A") clan_A_bo
  = Val (false, "Only the clan leader can disband the clan") clan_A_bo
  ∧ exec length_hash (DisbandClan 1 "A") clan_A_bo
    = Val (true, "Clan 'A' has been disbanded") empty_data.
Proof. split; vm_compute; reflexivity. Qed.

(** ** Reading the registry *)

Lemma str_inj (a b : Z) : str a = str b → a = b.
Proof. apply (inj pretty). Qed.

Lemma get_player_role_eq (player_id : Z) (s : clan_data) :
  get_player_role player_id s = Val (role_of s player_id) s.
Proof. reflexivity. Qed.

Ltac unfold_prims :=
  unfold has_permission, is_leader, get_player_role, get_player_clan,
    forget_member, save_data,
    clans_contains, clans_getitem, clans_setitem, clans_delitem, on_clan,
    players_contains, players_getitem, players_setitem, players_delitem,
    players_set_role, bind, ret in *.

Ltac unfold_ops :=
  unfold exec, create_clan, kick_member, invite_member, disband_clan,
    promote_member, demote_member, force_kick, force_join, delete_clan in *;
  unfold_prims.

(** ** Failing calls *)

Section Failure.
Variable hash : string → Z.

(** C1: a call that returns [ok = false] hands back the registry it was given:
    both dictionaries are as they were before the call. *)
Theorem failing_call_leaves_registry (o : op) (s s' : clan_data) (msg : string) :
  exec hash o s = Val (false, msg) s' → s' = s.
Proof.
  destruct o; unfold_ops; cbn beta iota.
  all: intros H; repeat (case_match; simplify_eq/=; try done).
Qed.

End Failure.

Lemma failing_call_leaves_registry_witness :
  exec length_hash (CreateClan 2 "A") clan_A
    = Val (false, "Clan name already exists") clan_A
  ∧ clan_A = clan_A.
Proof.
  split; [vm_compute; reflexivity|].
  symmetry.
  apply (failing_call_leaves_registry length_hash (CreateClan 2 "A") clan_A clan_A
           "Clan name already exists").
  vm_compute; reflexivity.
Defined.

(** ** Permissions *)

(** C5: in an existing clan the leader is granted every action; anybody else
    is judged on the role [get_player_role] reports, whatever clan that role
    was earned in: kick for Leader, Co-Leader and Mod; invite and
    promote_demote for Leader and Co-Leader; nothing for any other action. *)
Theorem has_permission_table (player_id : Z) (clan_name action : string)
    (s : clan_data) (c : Clan) :
  clans s !! clan_name = Some c →
  (leader c = player_id →
     has_permission player_id clan_name action s = Val true s) ∧
  (leader c ≠ player_id →
     (action = "kick" →
        has_permission player_id clan_name action s
        = Val (bool_decide (role_of s player_id ∈ ["Leader"; "Co-Leader"; "Mod"])) s) ∧
     (action = "invite" ∨ action = "promote_demote" →
        has_permission player_id clan_name action s
        = Val (bool_decide (role_of s player_id ∈ ["Leader"; "Co-Leader"])) s) ∧
     (action ≠ "kick" → action ≠ "invite" → action ≠ "promote_demote" →
        has_permission player_id clan_name action s = Val false s)).
Proof.
  intros Hc. unfold_prims. rewrite Hc. cbn beta iota.
  split.
  - intros ->. by rewrite bool_decide_eq_true_2.
  - intros Hne. rewrite (bool_decide_eq_false_2 _ Hne).
    fold (role_of s player_id).
    repeat split.
    + by intros ->.
    + by intros [-> | ->].
    + intros H1 H2 H3.
      by rewrite !bool_decide_eq_false_2.
Qed.

Lemma has_permission_existing (player_id : Z) (clan_name action : string)
    (s : clan_data) (c : Clan) :
  clans s !! clan_name = Some c →
  has_permission player_id clan_name action s = Val (permitted s c player_id action) s.
Proof.
  intros Hc. unfold_prims. rewrite Hc. cbn beta iota.
  unfold permitted. fold (role_of s player_id).
  destruct (bool_decide (leader c = player_id)); [done|].
  cbn [orb]. by repeat case_match.
Qed.

Lemma has_permission_unknown (player_id : Z) (clan_name action : string)
    (s : clan_data) :
  clans s !! clan_name = None →
  has_permission player_id clan_name action s = Exc KeyError s.
Proof. intros Hc. unfold_prims. by rewrite Hc. Qed.


(** ** Python's [remove] on lists *)

Lemma list_remove_None (x : Z) (l : list Z) : list_remove x l = None ↔ x ∉ l.
Proof.
  induction l as [|y l IH]; cbn.
  - split; [intros _; apply not_elem_of_nil | done].
  - rewrite not_elem_of_cons. case_bool_decide as Hy.
    + split; [done | intros [? _]; congruence].
    + rewrite fmap_None, IH. split; [|tauto].
      intros Hl. split; [congruence | done].
Qed.

Lemma list_remove_is_Some (x : Z) (l : list Z) : x ∈ l → is_Some (list_remove x l).
Proof.
  intros Hx. destruct (list_remove x l) eqn:E; [eauto|].
  by apply list_remove_None in E.
Qed.

Lemma list_remove_elem_of (x y : Z) (l l' : list Z) :
  list_remove x l = Some l' → y ∈ l' → y ∈ l.
Proof.
  revert l'. induction l as [|z l IH]; intros l'; cbn; [done|].
  case_bool_decide.
  - intros [= ->] Hy. rewrite elem_of_cons. by right.
  - destruct (list_remove x l) eqn:E; cbn; [|done].
    intros [= <-]. rewrite !elem_of_cons.
    intros [?|?]; [by left | right; by eapply IH].
Qed.

Lemma list_remove_other (x y : Z) (l l' : list Z) :
  list_remove x l = Some l' → y ≠ x → y ∈ l → y ∈ l'.
Proof.
  revert l'. induction l as [|z l IH]; intros l'; cbn; [done|].
  case_bool_decide as Hz.
  - intros [= ->] Hy. rewrite elem_of_cons. intros [?|?]; [congruence|done].
  - destruct (list_remove x l) eqn:E; cbn; [|done].
    intros [= <-] Hy. rewrite !elem_of_cons.
    intros [?|?]; [by left | right; by eapply IH].
Qed.

Lemma list_remove_NoDup (x : Z) (l l' : list Z) :
  list_remove x l = Some l' → NoDup l → NoDup l' ∧ x ∉ l'.
Proof.
  revert l'. induction l as [|z l IH]; intros l'; cbn; [done|].
  rewrite NoDup_cons. case_bool_decide as Hz.
  - intros [= ->] [Hzl Hl]. by subst.
  - destruct (list_remove x l) eqn:E; cbn; [|done].
    intros [= <-] [Hzl Hl]. destruct (IH _ eq_refl Hl) as [IH1 IH2].
    rewrite NoDup_cons, not_elem_of_cons. split_and!; [|done|congruence|done].
    intros Hz'. apply Hzl. by eapply list_remove_elem_of.
Qed.

Lemma drop_first_elem_of (x y : Z) (l : list Z) : y ∈ drop_first x l → y ∈ l.
Proof.
  unfold drop_first. destruct (list_remove x l) eqn:E; cbn; [|done].
  by eapply list_remove_elem_of.
Qed.

Lemma drop_first_other (x y : Z) (l : list Z) :
  y ≠ x → y ∈ l → y ∈ drop_first x l.
Proof.
  unfold drop_first. destruct (list_remove x l) eqn:E; cbn; [|done].
  by eapply list_remove_other.
Qed.

Lemma drop_first_NoDup (x : Z) (l : list Z) :
  NoDup l → NoDup (drop_first x l) ∧ x ∉ drop_first x l.
Proof.
  unfold drop_first. destruct (list_remove x l) eqn:E; cbn.
  - by eapply list_remove_NoDup.
  - intros Hl. split; [done|]. by apply list_remove_None.
Qed.

(** [list_remove] cuts out the first occurrence and nothing else. *)
Lemma list_remove_first_removed (x : Z) (l l' : list Z) :
  list_remove x l = Some l' ↔ first_removed x l l'.
Proof.
  split.
  - revert l'. induction l as [|y l IH]; intros l'; cbn; [done|].
    case_bool_decide as Hy.
    + intros [= ->]. subst y. exists [], l'. split; [done|]. split; [|done].
      apply not_elem_of_nil.
    + destruct (list_remove x l) as [l0|] eqn:E; cbn; [|done].
      intros [= <-]. destruct (IH l0 eq_refl) as (l1 & l2 & -> & Hout & ->).
      exists (y :: l1), l2. split; [done|]. split; [|done].
      rewrite not_elem_of_cons. split; [congruence | done].
  - intros (l1 & l2 & -> & Hout & ->).
    induction l1 as [|y l1 IH]; cbn.
    + by rewrite bool_decide_eq_true_2.
    + apply not_elem_of_cons in Hout as [Hy Hout].
      rewrite bool_decide_eq_false_2 by congruence.
      by rewrite (IH Hout).
Qed.

Lemma first_removed_elem_of (x : Z) (l l' : list Z) :
  first_removed x l l' → x ∈ l.
Proof.
  intros (l1 & l2 & -> & _ & _). apply elem_of_app. right. apply list_elem_of_here.
Qed.

Lemma first_removed_NoDup (x : Z) (l l' : list Z) :
  NoDup l → first_removed x l l' → x ∉ l'.
Proof.
  intros Hl (l1 & l2 & -> & Hout & ->).
  apply NoDup_app in Hl as (_ & _ & Hl2). apply NoDup_cons in Hl2 as [Hx _].
  rewrite not_elem_of_app. by split.
Qed.

Lemma first_removed_eq (x : Z) (l l' : list Z) :
  first_removed x l l' → l' = drop_first x l.
Proof.
  intros Hl. apply list_remove_first_removed in Hl. unfold drop_first.
  by rewrite Hl.
Qed.

Lemma drop_first_first_removed (x : Z) (l : list Z) :
  x ∈ l → first_removed x l (drop_first x l).
Proof.
  intros [l' Hl]%list_remove_is_Some. unfold drop_first. rewrite Hl. cbn.
  by apply list_remove_first_removed.
Qed.

Lemma drop_first_discarded (x : Z) (l : list Z) : discarded x l (drop_first x l).
Proof.
  split.
  - apply drop_first_first_removed.
  - intros Hout. apply list_remove_None in Hout. unfold drop_first.
    by rewrite Hout.
Qed.

Lemma discarded_NoDup (x : Z) (l l' : list Z) :
  NoDup l → discarded x l l' → x ∉ l'.
Proof.
  intros Hl [Hin Hout]. destruct (decide (x ∈ l)) as [Hx|Hx].
  - by eapply first_removed_NoDup; [|apply Hin].
  - by rewrite (Hout Hx).
Qed.

Lemma discarded_eq (x : Z) (l l' : list Z) :
  discarded x l l' → l' = drop_first x l.
Proof.
  intros [Hin Hout]. destruct (decide (x ∈ l)) as [Hx|Hx].
  - by apply first_removed_eq, Hin.
  - rewrite (Hout Hx). apply list_remove_None in Hx. unfold drop_first.
    by rewrite Hx.
Qed.

Lemma members_remove_eq (x : Z) (c : Clan) :
  x ∈ members c →
  members_remove x c
  = Some (mkClan (leader c) (drop_first x (members c)) (mods c) (coleaders c)).
Proof.
  intros [l Hl]%list_remove_is_Some. unfold members_remove, drop_first.
  by rewrite Hl.
Qed.

Lemma mods_discard_eq (x : Z) (c : Clan) :
  mods_discard x c
  = Some (mkClan (leader c) (members c) (drop_first x (mods c)) (coleaders c)).
Proof.
  unfold mods_discard, mods_remove, drop_first, contains.
  case_bool_decide as Hx.
  - apply list_remove_is_Some in Hx as [l Hl]. by rewrite Hl.
  - apply list_remove_None in Hx. rewrite Hx. by destruct c.
Qed.

Lemma coleaders_discard_eq (x : Z) (c : Clan) :
  coleaders_discard x c
  = Some (mkClan (leader c) (members c) (mods c) (drop_first x (coleaders c))).
Proof.
  unfold coleaders_discard, coleaders_remove, drop_first, contains.
  case_bool_decide as Hx.
  - apply list_remove_is_Some in Hx as [l Hl]. by rewrite Hl.
  - apply list_remove_None in Hx. rewrite Hx. by destruct c.
Qed.

(** [if key in players: del players[key]] never raises. *)
Lemma discard_record_eq (key : string) (cs : gmap string Clan)
    (ps : gmap string Player) :
  (if bool_decide (is_Some (ps !! key)) then players_delitem key else ret tt)
    (mkData cs ps)
  = Val tt (mkData cs (delete key ps)).
Proof.
  unfold players_delitem, ret. case_bool_decide as Hrec; cbn [players clans].
  - destruct Hrec as [p Hp]. by rewrite Hp.
  - apply eq_None_not_Some in Hrec. by rewrite delete_id.
Qed.

(** ** Kicking and inviting *)

Section Membership.
Variable hash : string → Z.



(** C9: in an existing clan, [invite_member] returns; it fails exactly when
    the target is not found, the inviter may not invite, or the target already
    has a player record (of this clan or any other).  When it succeeds the
    target is appended to the clan's members and gets a record naming this
    clan with role Member. *)
Theorem invite_member_spec (inviter_id : Z) (target_name clan_name : string)
    (s : clan_data) (c : Clan) :
  let target_id := find_player_id_by_name hash target_name in
  clans s !! clan_name = Some c →
  ∃ ok msg s',
    invite_member hash inviter_id target_name clan_name s = Val (ok, msg) s' ∧
    (ok = false ↔
       target_id = 0 ∨
       has_permission inviter_id clan_name "invite" s = Val false s ∨
       is_Some (players s !! str target_id)) ∧
    (ok = true →
       s' = mkData
              (<[clan_name := mkClan (leader c) (members c ++ [target_id])
                                (mods c) (coleaders c)]> (clans s))
              (<[str target_id := mkPlayer clan_name "Member"]> (players s))).
Proof.
  intros target_id Hc.
  rewrite (has_permission_existing _ _ _ _ _ Hc).
  unfold invite_member. fold target_id.
  case_bool_decide as H0.
  { eexists _, _, _. split; [done|]. split; [tauto | done]. }
  unfold bind at 1. rewrite (has_permission_existing _ _ _ _ _ Hc).
  destruct (permitted s c inviter_id "invite") eqn:Hperm; cbn [negb].
  2: { eexists _, _, _. split; [done|]. split; [tauto | done]. }
  unfold bind at 1. unfold players_contains at 1.
  case_bool_decide as Hrec.
  { eexists _, _, _. split; [done|]. split; [tauto | done]. }
  unfold bind, clans_getitem, on_clan, players_setitem, save_data, ret,
    members_append, list_append.
  rewrite Hc. cbn [clans players]. rewrite Hc. cbn [clans players].
  eexists _, _, _. split; [done|]. split; [|done].
  split; [done|]. intros [?|[?|?]]; done.
Qed.

End Membership.

(** ** Promotion and demotion *)

Section Roles.
Variable hash : string → Z.

Ltac enter_call Hc Hperm :=
  unfold promote_member, demote_member, bind;
  rewrite ?(has_permission_existing _ _ _ _ _ Hc); cbn beta iota;
  rewrite Hperm; cbn [negb];
  unfold clans_getitem, get_player_role, save_data, ret;
  rewrite ?Hc; cbn beta iota.




(** C10: a target role other than Mod and Co-Leader is not refused: once the
    target is found and the promoter may promote, the call reports success and
    leaves both dictionaries exactly as they were. *)
Theorem promote_member_other_role (promoter_id : Z)
    (target_name clan_name to_role : string) (s : clan_data) :
  to_role ≠ "Mod" → to_role ≠ "Co-Leader" →
  find_player_id_by_name hash target_name ≠ 0 →
  has_permission promoter_id clan_name "promote_demote" s = Val true s →
  promote_member hash promoter_id target_name clan_name to_role s
  = Val (true, "Successfully promoted " +:+ target_name +:+ " to " +:+ to_role) s.
Proof.
  intros Hmod Hco H0 Hperm.
  destruct (clans s !! clan_name) as [c|] eqn:Hc.
  2: { by rewrite (has_permission_unknown _ _ _ _ Hc) in Hperm. }
  rewrite (has_permission_existing _ _ _ _ _ Hc) in Hperm.
  injection Hperm as Hperm.
  unfold promote_member. rewrite (bool_decide_eq_false_2 _ H0).
  enter_call Hc Hperm.
  by rewrite !bool_decide_eq_false_2.
Qed.



End Roles.

(** ** The operation tables at work *)

Lemma has_permission_table_witness :
  clans clan_A_bo !! "A" = Some (mkClan 1 [1; 2] [] []) ∧
  has_permission 2 "A" "kick" clan_A_bo = Val false clan_A_bo.
Proof.
  split; [vm_compute; reflexivity|].
  destruct (has_permission_table 2 "A" "kick" clan_A_bo (mkClan 1 [1; 2] [] []))
    as [_ Hother]; [vm_compute; reflexivity|].
  destruct Hother as [Hkick _]; [vm_compute; discriminate|].
  rewrite Hkick by reflexivity. vm_compute. reflexivity.
Defined.



(** The same happens on [members] once a member of ["A"] has created and
    disbanded a clan of its own and was invited into ["A"] again. *)
Example kicked_player_stays_in_members :
  clans (run length_hash
           [CreateClan 1 "A"; InviteMember 1 "bo" "A"; CreateClan 2 "B";
            DisbandClan 2 "B"; InviteMember 1 "bo" "A"; KickMember 1 "bo" "A"]
           empty_data) !! "A"
  = Some (mkClan 1 [1; 2] [] []).
Proof. vm_compute. reflexivity. Qed.

Lemma invite_member_spec_witness :
  clans clan_A !! "A" = Some (mkClan 1 [1] [] []) ∧
  ∃ ok msg s',
    invite_member length_hash 1 "bo" "A" clan_A = Val (ok, msg) s' ∧
    (ok = true → s' = clan_A_bo).
Proof.
  split; [vm_compute; reflexivity|].
  destruct (invite_member_spec length_hash 1 "bo" "A" clan_A (mkClan 1 [1] [] []))
    as (ok & msg & s' & Hcall & _ & Hok); [vm_compute; reflexivity|].
  exists ok, msg, s'. split; [exact Hcall|].
  intros Htrue. rewrite (Hok Htrue). vm_compute. reflexivity.
Defined.





Lemma promote_member_other_role_witness :
  promote_member length_hash 1 "bo" "A" "Elder" clan_A_bo
  = Val (true, "Successfully promoted bo to Elder") clan_A_bo.
Proof.
  apply (promote_member_other_role length_hash 1 "bo" "A" "Elder" clan_A_bo).
  - discriminate.
  - discriminate.
  - vm_compute. discriminate.
  - vm_compute. reflexivity.
Defined.

(** ** What a call can do to the registry *)

(** *** One statement at a time *)

Lemma bind_ret {A B} (a : A) (k : A → M B) (s : clan_data) :
  bind (ret a) k s = k a s.
Proof. reflexivity. Qed.

Lemma bind_save_data {B} (k : unit → M B) (s : clan_data) :
  bind save_data k s = k tt s.
Proof. reflexivity. Qed.

Lemma bind_clans_contains {B} (n : string) (k : bool → M B) (s : clan_data) :
  bind (clans_contains n) k s = k (bool_decide (is_Some (clans s !! n))) s.
Proof. reflexivity. Qed.

Lemma bind_clans_getitem {B} (n : string) (k : Clan → M B) (s : clan_data) :
  bind (clans_getitem n) k s
  = match clans s !! n with
    | Some c => k c s
    | None => Exc KeyError s
    end.
Proof. unfold bind, clans_getitem. by destruct (clans s !! n). Qed.

Lemma bind_clans_setitem {B} (n : string) (c : Clan) (k : unit → M B)
    (s : clan_data) :
  bind (clans_setitem n c) k s = k tt (mkData (<[n := c]> (clans s)) (players s)).
Proof. reflexivity. Qed.

Lemma bind_clans_delitem {B} (n : string) (k : unit → M B) (s : clan_data) :
  bind (clans_delitem n) k s
  = match clans s !! n with
    | Some _ => k tt (mkData (delete n (clans s)) (players s))
    | None => Exc KeyError s
    end.
Proof. unfold bind, clans_delitem. by destruct (clans s !! n). Qed.

Lemma bind_on_clan {B} (n : string) (stmt : Clan → option Clan)
    (k : unit → M B) (s : clan_data) :
  bind (on_clan n stmt) k s
  = match clans s !! n with
    | None => Exc KeyError s
    | Some c =>
        match stmt c with
        | None => Exc ValueError s
        | Some c' => k tt (mkData (<[n := c']> (clans s)) (players s))
        end
    end.
Proof.
  unfold bind, on_clan. destruct (clans s !! n) as [c|]; [|done].
  by destruct (stmt c).
Qed.

Lemma bind_players_contains {B} (key : string) (k : bool → M B) (s : clan_data) :
  bind (players_contains key) k s = k (bool_decide (is_Some (players s !! key))) s.
Proof. reflexivity. Qed.

Lemma bind_players_getitem {B} (key : string) (k : Player → M B) (s : clan_data) :
  bind (players_getitem key) k s
  = match players s !! key with
    | Some p => k p s
    | None => Exc KeyError s
    end.
Proof. unfold bind, players_getitem. by destruct (players s !! key). Qed.

Lemma bind_players_setitem {B} (key : string) (p : Player) (k : unit → M B)
    (s : clan_data) :
  bind (players_setitem key p) k s
  = k tt (mkData (clans s) (<[key := p]> (players s))).
Proof. reflexivity. Qed.

Lemma bind_players_delitem {B} (key : string) (k : unit → M B) (s : clan_data) :
  bind (players_delitem key) k s
  = match players s !! key with
    | Some _ => k tt (mkData (clans s) (delete key (players s)))
    | None => Exc KeyError s
    end.
Proof. unfold bind, players_delitem. by destruct (players s !! key). Qed.

Lemma bind_players_set_role {B} (key r : string) (k : unit → M B) (s : clan_data) :
  bind (players_set_role key r) k s
  = match players s !! key with
    | Some p => k tt (mkData (clans s) (<[key := mkPlayer (clan p) r]> (players s)))
    | None => Exc KeyError s
    end.
Proof. unfold bind, players_set_role. by destruct (players s !! key). Qed.

Lemma bind_get_player_role {B} (player_id : Z) (k : string → M B) (s : clan_data) :
  bind (get_player_role player_id) k s = k (role_of s player_id) s.
Proof. reflexivity. Qed.

Lemma bind_is_leader {B} (player_id : Z) (n : string) (k : bool → M B)
    (s : clan_data) :
  bind (is_leader player_id n) k s
  = match clans s !! n with
    | Some c => k (bool_decide (leader c = player_id)) s
    | None => Exc KeyError s
    end.
Proof.
  unfold is_leader, bind, clans_getitem, ret. by destruct (clans s !! n).
Qed.

Lemma bind_has_permission {B} (player_id : Z) (n action : string) (k : bool → M B)
    (s : clan_data) :
  bind (has_permission player_id n action) k s
  = match clans s !! n with
    | Some c => k (permitted s c player_id action) s
    | None => Exc KeyError s
    end.
Proof.
  unfold bind at 1. destruct (clans s !! n) as [c|] eqn:Hc.
  - by rewrite (has_permission_existing _ _ _ _ _ Hc).
  - by rewrite (has_permission_unknown _ _ _ _ Hc).
Qed.

Lemma bind_forget_member {B} (member_id : Z) (k : unit → M B) (s : clan_data) :
  bind (forget_member member_id) k s
  = k tt (mkData (clans s) (delete (str member_id) (players s))).
Proof.
  unfold bind at 1. unfold forget_member. rewrite bind_players_contains.
  destruct s as [cs ps]. cbn [players clans]. by rewrite discard_record_eq.
Qed.

Lemma for_each_forget (l : list Z) (s : clan_data) :
  for_each l forget_member s = Val tt (mkData (clans s) (forget l (players s))).
Proof.
  revert s. induction l as [|x l IH]; intros s; cbn [for_each].
  - by destruct s.
  - rewrite bind_forget_member. by rewrite IH.
Qed.

Lemma bind_for_each_forget {B} (l : list Z) (k : unit → M B) (s : clan_data) :
  bind (for_each l forget_member) k s
  = k tt (mkData (clans s) (forget l (players s))).
Proof. unfold bind. by rewrite for_each_forget. Qed.

Lemma alter_present (f : Player → Player) (key : string) (p : Player)
    (ps : gmap string Player) :
  ps !! key = Some p → <[key := f p]> ps = alter f key ps.
Proof.
  intros Hp. apply map_eq. intros k. rewrite lookup_alter, lookup_insert.
  case_decide; [subst; by rewrite Hp | done].
Qed.

Lemma alter_absent (f : Player → Player) (key : string) (ps : gmap string Player) :
  ps !! key = None → ps = alter f key ps.
Proof.
  intros Hp. apply map_eq. intros k. rewrite lookup_alter.
  case_decide; [subst; by rewrite Hp | done].
Qed.

Lemma bind_discard_record {B} (key : string) (k : unit → M B)
    (cs : gmap string Clan) (ps : gmap string Player) :
  bind (if bool_decide (is_Some (ps !! key)) then players_delitem key else ret tt)
    k (mkData cs ps)
  = k tt (mkData cs (delete key ps)).
Proof. unfold bind. by rewrite discard_record_eq. Qed.

Ltac py_simp :=
  repeat first
    [ rewrite bind_ret | rewrite bind_save_data
    | rewrite bind_clans_contains | rewrite bind_clans_getitem
    | rewrite bind_clans_setitem | rewrite bind_clans_delitem
    | rewrite bind_on_clan | rewrite bind_players_contains
    | rewrite bind_players_getitem | rewrite bind_players_setitem
    | rewrite bind_players_delitem | rewrite bind_players_set_role
    | rewrite bind_get_player_role | rewrite bind_is_leader
    | rewrite bind_has_permission | rewrite bind_for_each_forget
    | rewrite bind_discard_record
    | rewrite lookup_insert_eq
    | rewrite insert_insert_eq
    | match goal with
      | H : ?m !! ?k = _ |- context [?m !! ?k] => rewrite H
      end
    | progress cbn [clans players state_of negb leader members mods coleaders] ].

(** *** The outcomes of each operation

    For each operation: whatever a property [P] of registries, if it holds of
    the registry the call was given and of every registry the call can build,
    it holds of the registry the call leaves, whether it returned or raised. *)

Section Cases.
Variable hash : string → Z.
Variable P : clan_data → Prop.

Lemma create_clan_cases (leader_id : Z) (n : string) (s : clan_data) :
  P s →
  (clans s !! n = None → P (after_create leader_id n s)) →
  P (step hash s (CreateClan leader_id n)).
Proof.
  intros HP Hnew. unfold step, exec, create_clan. py_simp.
  case_bool_decide as Hn; py_simp; [exact HP|].
  apply Hnew. by apply eq_None_not_Some.
Qed.

Lemma kick_member_cases (kicker_id : Z) (target_name n : string) (s : clan_data) :
  let t := find_player_id_by_name hash target_name in
  P s →
  (∀ c, clans s !! n = Some c → t ∈ members c → leader c ≠ t →
        P (after_leave t n c s)) →
  P (step hash s (KickMember kicker_id target_name n)).
Proof.
  intros t HP Hleave. unfold step, exec, kick_member. fold t.
  case_bool_decide; [exact HP|]. case_bool_decide; [exact HP|].
  py_simp. destruct (clans s !! n) as [c|] eqn:Hc; [|exact HP].
  unfold contains. case_bool_decide as Hin; py_simp; [|exact HP].
  rewrite ?Hc. destruct (permitted s c kicker_id "kick"); py_simp; [|exact HP].
  rewrite ?Hc. case_bool_decide as Hlead; py_simp; [exact HP|].
  rewrite ?Hc, (members_remove_eq _ _ Hin). py_simp.
  rewrite mods_discard_eq. py_simp. rewrite coleaders_discard_eq. py_simp.
  unfold ret. py_simp. by apply Hleave.
Qed.

Lemma invite_member_cases (inviter_id : Z) (target_name n : string) (s : clan_data) :
  let t := find_player_id_by_name hash target_name in
  P s →
  (∀ c, clans s !! n = Some c → players s !! str t = None →
        P (after_join t n c s)) →
  P (step hash s (InviteMember inviter_id target_name n)).
Proof.
  intros t HP Hjoin. unfold step, exec, invite_member. fold t.
  case_bool_decide; [exact HP|].
  py_simp. destruct (clans s !! n) as [c|] eqn:Hc; [|exact HP].
  destruct (permitted s c inviter_id "invite"); py_simp; [|exact HP].
  case_bool_decide as Hrec; py_simp; [exact HP|].
  rewrite ?Hc. py_simp. rewrite ?Hc. unfold members_append, list_append. py_simp.
  unfold ret. py_simp. apply Hjoin; [done|]. by apply eq_None_not_Some.
Qed.

Lemma disband_clan_cases (leader_id : Z) (n : string) (s : clan_data) :
  P s →
  (∀ c, clans s !! n = Some c → P (after_dissolve n c s)) →
  P (step hash s (DisbandClan leader_id n)).
Proof.
  intros HP Hgone. unfold step, exec, disband_clan.
  py_simp. destruct (clans s !! n) as [c|] eqn:Hc; [|exact HP].
  case_bool_decide; py_simp; [|exact HP].
  rewrite ?Hc. py_simp. rewrite ?Hc. unfold ret. py_simp. by apply Hgone.
Qed.

Lemma delete_clan_cases (n : string) (s : clan_data) :
  P s →
  (∀ c, clans s !! n = Some c → P (after_dissolve n c s)) →
  P (step hash s (DeleteClan n)).
Proof.
  intros HP Hgone. unfold step, exec, delete_clan.
  py_simp. destruct (clans s !! n) as [c|] eqn:Hc.
  2: { rewrite bool_decide_eq_false_2 by (by intros [? ?]). py_simp. exact HP. }
  rewrite bool_decide_eq_true_2 by eauto. py_simp. rewrite ?Hc. py_simp.
  unfold ret. py_simp. by apply Hgone.
Qed.

Lemma force_kick_cases (target_name : string) (s : clan_data) :
  let t := find_player_id_by_name hash target_name in
  P s →
  (∀ r c, players s !! str t = Some r → clans s !! clan r = Some c →
          t ∈ members c → P (after_leave t (clan r) c s)) →
  P (step hash s (ForceKick target_name)).
Proof.
  intros t HP Hleave. unfold step, exec, force_kick. fold t.
  case_bool_decide; [exact HP|].
  py_simp. destruct (players s !! str t) as [r|] eqn:Hr.
  2: { rewrite bool_decide_eq_false_2 by (by intros [? ?]). py_simp. exact HP. }
  rewrite bool_decide_eq_true_2 by eauto. py_simp.
  destruct (clans s !! clan r) as [c|] eqn:Hc; [|exact HP].
  destruct (decide (t ∈ members c)) as [Hin|Hout].
  2: { unfold members_remove. apply list_remove_None in Hout. rewrite Hout.
       cbn. exact HP. }
  rewrite (members_remove_eq _ _ Hin). py_simp.
  rewrite mods_discard_eq. py_simp. rewrite coleaders_discard_eq. py_simp.
  rewrite ?Hr. unfold ret. py_simp. by apply Hleave.
Qed.

Lemma force_join_cases (target_name n : string) (s : clan_data) :
  let t := find_player_id_by_name hash target_name in
  P s →
  (∀ c, clans s !! n = Some c → players s !! str t = None →
        P (after_join t n c s)) →
  (∀ r c0 c, players s !! str t = Some r → clans s !! clan r = Some c0 →
             t ∈ members c0 →
             clans (after_leave t (clan r) c0 s) !! n = Some c →
             P (after_join t n c (after_leave t (clan r) c0 s))) →
  P (step hash s (ForceJoin target_name n)).
Proof.
  intros t HP Hjoin Hmove. unfold step, exec, force_join. fold t.
  case_bool_decide; [exact HP|].
  py_simp. destruct (clans s !! n) as [c|] eqn:Hc.
  2: { rewrite bool_decide_eq_false_2 by (by intros [? ?]). py_simp. exact HP. }
  rewrite bool_decide_eq_true_2 by eauto. py_simp.
  destruct (players s !! str t) as [r|] eqn:Hr.
  2: { rewrite bool_decide_eq_false_2 by (by intros [? ?]). py_simp.
       rewrite ?Hc. py_simp. rewrite ?Hc. unfold members_append, list_append.
       py_simp. unfold ret. py_simp. by apply Hjoin. }
  rewrite bool_decide_eq_true_2 by eauto.
  unfold bind at 1. py_simp. rewrite ?Hr.
  destruct (clans s !! clan r) as [c0|] eqn:Hc0; [|exact HP].
  destruct (decide (t ∈ members c0)) as [Hin|Hout].
  2: { unfold members_remove. apply list_remove_None in Hout. rewrite Hout.
       cbn. exact HP. }
  rewrite (members_remove_eq _ _ Hin). py_simp.
  rewrite mods_discard_eq. py_simp.
  unfold on_clan at 1. py_simp. rewrite coleaders_discard_eq. py_simp.
  fold (without t c0).
  specialize (Hmove r c0). unfold after_leave, after_join in Hmove.
  cbn [clans players] in Hmove.
  destruct (<[clan r := without t c0]> (clans s) !! n) as [c1|] eqn:Hc1.
  2: { exfalso. rewrite lookup_insert in Hc1. case_decide; simplify_eq. }
  py_simp. unfold members_append, list_append. py_simp. unfold ret. py_simp.
  rewrite <- (insert_delete_eq (players s)).
  by apply Hmove.
Qed.

Lemma regrade_outcome (t : Z) (n r : string) (c' : Clan) (s : clan_data)
    (msg : string) :
  P (after_regrade t n c' r s) →
  P (state_of
       match players s !! str t with
       | Some p =>
           Val (true, msg)
             (mkData (<[n := c']> (clans s))
                     (<[str t := mkPlayer (clan p) r]> (players s)))
       | None => Exc KeyError (mkData (<[n := c']> (clans s)) (players s))
       end).
Proof.
  unfold after_regrade. intros HP.
  destruct (players s !! str t) as [p|] eqn:Hp; cbn [state_of].
  - by rewrite (alter_present (λ p, mkPlayer (clan p) r) _ _ _ Hp).
  - by rewrite <- (alter_absent _ _ _ Hp) in HP.
Qed.

Lemma promote_member_cases (promoter_id : Z) (target_name n to_role : string)
    (s : clan_data) :
  let t := find_player_id_by_name hash target_name in
  P s →
  (∀ c, clans s !! n = Some c → to_role = "Mod" → role_of s t = "Member" →
        P (after_regrade t n
             (mkClan (leader c) (members c) (mods c ++ [t]) (coleaders c))
             "Mod" s)) →
  (∀ c, clans s !! n = Some c → to_role = "Co-Leader" → role_of s t = "Member" →
        P (after_regrade t n
             (mkClan (leader c) (members c) (mods c ++ [t]) (coleaders c ++ [t]))
             "Co-Leader" s)) →
  (∀ c, clans s !! n = Some c → to_role = "Co-Leader" → role_of s t = "Mod" →
        t ∈ mods c →
        P (after_regrade t n
             (mkClan (leader c) (members c) (drop_first t (mods c))
                (coleaders c ++ [t]))
             "Co-Leader" s)) →
  P (step hash s (PromoteMember promoter_id target_name n to_role)).
Proof.
  intros t HP Hmod Hboth Hmove. unfold step, exec, promote_member. fold t.
  case_bool_decide; [exact HP|].
  py_simp. destruct (clans s !! n) as [c|] eqn:Hc; [|exact HP].
  destruct (permitted s c promoter_id "promote_demote"); py_simp; [|exact HP].
  case_bool_decide as Hto.
  { case_bool_decide as Hrole; py_simp; [|exact HP].
    unfold mods_append, list_append. py_simp. unfold ret.
    apply regrade_outcome. by apply Hmod. }
  case_bool_decide as Hto'; [|unfold ret; py_simp; exact HP].
  case_bool_decide as Hrole.
  { py_simp. unfold mods_append, coleaders_append, list_append. py_simp.
    unfold ret. apply regrade_outcome. by apply Hboth. }
  case_bool_decide as Hrole'; [|exact HP].
  py_simp. destruct (decide (t ∈ mods c)) as [Hin|Hout].
  2: { unfold mods_remove. apply list_remove_None in Hout. rewrite Hout.
       cbn. exact HP. }
  unfold mods_remove. destruct (list_remove_is_Some _ _ Hin) as [l Hl].
  rewrite Hl. cbn [fmap option_fmap option_map]. py_simp.
  unfold coleaders_append, list_append. py_simp. unfold ret.
  apply regrade_outcome.
  specialize (Hmove c). unfold drop_first in Hmove. rewrite Hl in Hmove.
  by apply Hmove.
Qed.

Lemma demote_member_cases (demoter_id : Z) (target_name n : string)
    (s : clan_data) :
  let t := find_player_id_by_name hash target_name in
  P s →
  (∀ c, clans s !! n = Some c → role_of s t = "Co-Leader" → t ∈ coleaders c →
        P (after_regrade t n
             (mkClan (leader c) (members c) (mods c ++ [t])
                (drop_first t (coleaders c)))
             "Mod" s)) →
  (∀ c, clans s !! n = Some c → role_of s t = "Mod" → t ∈ mods c →
        P (after_regrade t n
             (mkClan (leader c) (members c) (drop_first t (mods c)) (coleaders c))
             "Member" s)) →
  P (step hash s (DemoteMember demoter_id target_name n)).
Proof.
  intros t HP Hco Hmod. unfold step, exec, demote_member. fold t.
  case_bool_decide; [exact HP|].
  py_simp. destruct (clans s !! n) as [c|] eqn:Hc; [|exact HP].
  destruct (permitted s c demoter_id "promote_demote"); py_simp; [|exact HP].
  case_bool_decide as Hrole.
  { py_simp. destruct (decide (t ∈ coleaders c)) as [Hin|Hout].
    2: { unfold coleaders_remove. apply list_remove_None in Hout. rewrite Hout.
         cbn. exact HP. }
    unfold coleaders_remove. destruct (list_remove_is_Some _ _ Hin) as [l Hl].
    rewrite Hl. cbn [fmap option_fmap option_map]. py_simp.
    unfold mods_append, list_append. py_simp. unfold ret.
    apply regrade_outcome.
    specialize (Hco c). unfold drop_first in Hco. rewrite Hl in Hco.
    by apply Hco. }
  case_bool_decide as Hrole'; [|exact HP].
  py_simp. destruct (decide (t ∈ mods c)) as [Hin|Hout].
  2: { unfold mods_remove. apply list_remove_None in Hout. rewrite Hout.
       cbn. exact HP. }
  unfold mods_remove. destruct (list_remove_is_Some _ _ Hin) as [l Hl].
  rewrite Hl. cbn [fmap option_fmap option_map]. py_simp. unfold ret.
  apply regrade_outcome.
  specialize (Hmod c). unfold drop_first in Hmod. rewrite Hl in Hmod.
  by apply Hmod.
Qed.

End Cases.

(** ** Invariants of the registry *)

Lemma drop_first_iff (x y : Z) (l : list Z) :
  y ≠ x → y ∈ drop_first x l ↔ y ∈ l.
Proof.
  intros Hy. split; [apply drop_first_elem_of | by apply drop_first_other].
Qed.

Lemma snoc_iff (x y : Z) (l : list Z) : y ≠ x → y ∈ (l ++ [x])%list ↔ y ∈ l.
Proof.
  intros Hy. rewrite elem_of_app, list_elem_of_singleton. tauto.
Qed.

Lemma NoDup_snoc_fresh (x : Z) (l : list Z) :
  NoDup l → x ∉ l → NoDup (l ++ [x])%list.
Proof.
  intros Hl Hx. apply NoDup_app. split_and!; [done| |apply NoDup_singleton].
  intros y Hy ->%list_elem_of_singleton. done.
Qed.

Lemma forget_other (key : string) (l : list Z) (ps : gmap string Player) :
  (∀ m, m ∈ l → str m ≠ key) → forget l ps !! key = ps !! key.
Proof.
  revert ps. induction l as [|x l IH]; intros ps Hl; cbn; [done|].
  unfold forget in IH. rewrite IH.
  - apply lookup_delete_ne. apply Hl, list_elem_of_here.
  - intros m Hm. apply Hl. by apply list_elem_of_further.
Qed.

Lemma forget_gone (m : Z) (l : list Z) (ps : gmap string Player) :
  m ∈ l → forget l ps !! str m = None.
Proof.
  revert ps. induction l as [|x l IH]; intros ps Hm; cbn.
  - by apply elem_of_nil in Hm.
  - destruct (decide (m ∈ l)) as [Hin|Hout].
    + by apply IH.
    + apply elem_of_cons in Hm as [->|?]; [|done].
      fold (forget l (delete (str x) ps)). rewrite forget_other.
      * apply lookup_delete_eq.
      * intros m Hm Heq. apply str_inj in Heq. by subst.
Qed.

Lemma lookup_regrade_clan (r key key' : string) (ps : gmap string Player) :
  clan <$> alter (λ p, mkPlayer (clan p) r) key ps !! key' = clan <$> ps !! key'.
Proof.
  rewrite lookup_alter. case_decide; [subst|done]. by destruct (ps !! key').
Qed.

(** *** Changing one clan and the record of one player *)

Section Update.
Variables (s : clan_data) (n : string) (c c' : Clan) (t : Z).
Variable ps' : gmap string Player.
Hypothesis Hc : clans s !! n = Some c.
Hypothesis Hframe : ∀ p, p ≠ t → ps' !! str p = players s !! str p.
Hypothesis Hhome : ∀ r, players s !! str t = Some r → clan r = n.
Hypothesis Hmembers : ∀ p, p ≠ t → p ∈ members c' ↔ p ∈ members c.
Hypothesis Hdistinct : NoDup (members c').
Hypothesis Hrecord : t ∈ members c' → clan <$> ps' !! str t = Some n.

Lemma elsewhere_not_target (n0 : string) (c0 : Clan) (p : Z) :
  roster_sound s → n ≠ n0 → clans s !! n0 = Some c0 → p ∈ members c0 → p ≠ t.
Proof.
  intros [Hrec _] Hn Hc0 Hp ->. specialize (Hrec _ _ _ Hc0 Hp).
  destruct (players s !! str t) as [r|] eqn:Hr; [|done].
  cbn in Hrec. injection Hrec as Hrec. specialize (Hhome _ eq_refl). congruence.
Qed.

Lemma roster_sound_update :
  roster_sound s → roster_sound (mkData (<[n := c']> (clans s)) ps').
Proof.
  intros Hs. pose proof Hs as [Hrec Hnd]. split; cbn [clans players].
  - intros n0 c0 p Hlook Hin. rewrite lookup_insert in Hlook.
    case_decide as Hn.
    + subst n0. injection Hlook as <-.
      destruct (decide (p = t)) as [->|Hpt]; [by apply Hrecord|].
      rewrite Hframe by done. apply (Hrec n c); [done|]. by apply Hmembers.
    + rewrite Hframe by (by eapply elsewhere_not_target).
      by apply (Hrec n0 c0).
  - intros n0 c0 Hlook. rewrite lookup_insert in Hlook.
    case_decide as Hn; [by injection Hlook as <- | by eapply Hnd].
Qed.

Hypothesis Hleader : leader c' = leader c.
Hypothesis Hmods : ∀ p, p ≠ t → p ∈ mods c' ↔ p ∈ mods c.
Hypothesis Hcols : ∀ p, p ≠ t → p ∈ coleaders c' ↔ p ∈ coleaders c.
Hypothesis Hcons : clan_consistent c' ∧ NoDup (mods c') ∧ NoDup (coleaders c').
Hypothesis Hrole : ∀ r', ps' !! str t = Some r' →
  clan r' = n ∧ t ∈ members c' ∧ role_matches c' t (role r').

Lemma ranks_sound_update :
  roster_sound s → ranks_sound s →
  ranks_sound (mkData (<[n := c']> (clans s)) ps').
Proof.
  intros Hs (Hcl & Hroles & Hrecs). split_and!; cbn [clans players].
  - intros n0 c0 Hlook. rewrite lookup_insert in Hlook.
    case_decide as Hn; [by injection Hlook as <- | by eapply Hcl].
  - intros n0 c0 p r Hlook Hin Hr. rewrite lookup_insert in Hlook.
    case_decide as Hn.
    + subst n0. injection Hlook as <-.
      destruct (decide (p = t)) as [->|Hpt]; [by apply Hrole|].
      rewrite Hframe in Hr by done.
      apply Hmembers in Hin; [|done].
      destruct (Hroles _ _ _ _ Hc Hin Hr) as (Hl & Hco & Hmo).
      unfold role_matches. rewrite Hleader, (Hcols _ Hpt), (Hmods _ Hpt). done.
    + assert (p ≠ t) as Hpt by (by eapply elsewhere_not_target).
      rewrite Hframe in Hr by done. by eapply Hroles.
  - intros p r Hr. destruct (decide (p = t)) as [->|Hpt].
    + destruct (Hrole _ Hr) as (-> & Hin & _). exists c'.
      by rewrite lookup_insert_eq.
    + rewrite Hframe in Hr by done.
      destruct (Hrecs _ _ Hr) as (c0 & Hc0 & Hin).
      destruct (decide (clan r = n)) as [Hn|Hn].
      * exists c'. rewrite Hn, lookup_insert_eq. split; [done|].
        apply Hmembers; [done|]. rewrite Hn in Hc0. congruence.
      * exists c0. by rewrite lookup_insert_ne.
Qed.

End Update.

(** *** The roster invariant under each outcome *)

Lemma roster_sound_empty : roster_sound empty_data.
Proof. split; intros n c; cbn; by rewrite lookup_empty. Qed.

Lemma roster_home (s : clan_data) (n : string) (c : Clan) (t : Z) (r : Player) :
  roster_sound s → clans s !! n = Some c → t ∈ members c →
  players s !! str t = Some r → clan r = n.
Proof.
  intros [Hrec _] Hc Hin Hr. specialize (Hrec _ _ _ Hc Hin).
  rewrite Hr in Hrec. by injection Hrec.
Qed.

Lemma roster_unrecorded (s : clan_data) (n : string) (c : Clan) (t : Z) :
  roster_sound s → clans s !! n = Some c → players s !! str t = None →
  t ∉ members c.
Proof.
  intros [Hrec _] Hc Hr Hin. specialize (Hrec _ _ _ Hc Hin).
  by rewrite Hr in Hrec.
Qed.

Lemma roster_sound_create (l : Z) (n : string) (s : clan_data) :
  roster_sound s → clans s !! n = None → players s !! str l = None →
  roster_sound (after_create l n s).
Proof.
  intros Hs Hn Hl. pose proof Hs as [Hrec Hnd].
  split; cbn [after_create clans players].
  - intros n0 c0 p Hlook Hin. rewrite lookup_insert in Hlook.
    case_decide as Hn0.
    + subst n0. injection Hlook as <-. cbn in Hin.
      apply list_elem_of_singleton in Hin as ->. by rewrite lookup_insert_eq.
    + rewrite lookup_insert_ne; [by eapply Hrec|].
      intros Heq%str_inj. subst p. by eapply roster_unrecorded.
  - intros n0 c0 Hlook. rewrite lookup_insert in Hlook.
    case_decide as Hn0; [|by eapply Hnd].
    injection Hlook as <-. apply NoDup_singleton.
Qed.

Lemma roster_sound_leave (t : Z) (n : string) (c : Clan) (s : clan_data) :
  roster_sound s → clans s !! n = Some c → t ∈ members c →
  roster_sound (after_leave t n c s).
Proof.
  intros Hs Hc Hin. pose proof Hs as [Hrec Hnd].
  destruct (drop_first_NoDup t (members c)) as [Hnd' Hgone]; [by eapply Hnd|].
  apply (roster_sound_update s n c (without t c) t); try done.
  - intros p Hp. apply lookup_delete_ne. by intros ?%str_inj.
  - intros r. by apply roster_home with c.
  - intros p Hp. by apply drop_first_iff.
Qed.

Lemma roster_sound_join (t : Z) (n : string) (c : Clan) (s : clan_data) :
  roster_sound s → clans s !! n = Some c → players s !! str t = None →
  roster_sound (after_join t n c s).
Proof.
  intros Hs Hc Hr. pose proof Hs as [Hrec Hnd].
  apply (roster_sound_update s n c (with_member t c) t); try done.
  - intros p Hp. apply lookup_insert_ne. by intros ?%str_inj.
  - intros r. by rewrite Hr.
  - intros p Hp. by apply snoc_iff.
  - apply NoDup_snoc_fresh; [by eapply Hnd | by eapply roster_unrecorded].
  - intros _. by rewrite lookup_insert_eq.
Qed.

Lemma roster_sound_dissolve (n : string) (c : Clan) (s : clan_data) :
  roster_sound s → clans s !! n = Some c → roster_sound (after_dissolve n c s).
Proof.
  intros Hs Hc. pose proof Hs as [Hrec Hnd].
  split; cbn [after_dissolve clans players].
  - intros n0 c0 p Hlook Hin. rewrite lookup_delete in Hlook.
    case_decide as Hn0; [done|].
    rewrite forget_other; [by eapply Hrec|].
    intros m Hm Heq%str_inj. subst m.
    pose proof (Hrec _ _ _ Hc Hm) as H1. pose proof (Hrec _ _ _ Hlook Hin) as H2.
    congruence.
  - intros n0 c0 Hlook. rewrite lookup_delete in Hlook.
    case_decide; [done | by eapply Hnd].
Qed.

Lemma roster_sound_regrade (t : Z) (n r : string) (c c' : Clan) (s : clan_data) :
  roster_sound s → clans s !! n = Some c → members c' = members c →
  roster_sound (after_regrade t n c' r s).
Proof.
  intros [Hrec Hnd] Hc Hsame. split; cbn [after_regrade clans players].
  - intros n0 c0 p Hlook Hin. rewrite lookup_regrade_clan.
    rewrite lookup_insert in Hlook. case_decide as Hn0; [|by eapply Hrec].
    subst n0. injection Hlook as <-. rewrite Hsame in Hin. by eapply Hrec.
  - intros n0 c0 Hlook. rewrite lookup_insert in Hlook.
    case_decide as Hn0; [|by eapply Hnd].
    injection Hlook as <-. rewrite Hsame. by eapply Hnd.
Qed.

Section Roster.
Variable hash : string → Z.

Lemma roster_sound_step (s : clan_data) (o : op) :
  creator_is_clanless s o = true → roster_sound s → roster_sound (step hash s o).
Proof.
  intros Hok Hs. destruct o.
  - apply create_clan_cases; [done|]. intros Hn.
    apply roster_sound_create; [done..|].
    cbn in Hok. by apply bool_decide_eq_true in Hok.
  - apply kick_member_cases; [done|]. intros c Hc Hin _.
    by apply roster_sound_leave.
  - apply invite_member_cases; [done|]. intros c Hc Hr.
    by apply roster_sound_join.
  - apply disband_clan_cases; [done|]. intros c Hc.
    by apply roster_sound_dissolve.
  - apply promote_member_cases; [done|..]; intros c Hc;
      intros; by apply roster_sound_regrade with c.
  - apply demote_member_cases; [done|..]; intros c Hc;
      intros; by apply roster_sound_regrade with c.
  - apply force_kick_cases; [done|]. intros r c Hr Hc Hin.
    by apply roster_sound_leave.
  - apply force_join_cases; [done|..].
    + intros c Hc Hr. by apply roster_sound_join.
    + intros r c0 c Hr Hc0 Hin Hc.
      apply roster_sound_join; [by apply roster_sound_leave | done |].
      cbn. apply lookup_delete_eq.
  - apply delete_clan_cases; [done|]. intros c Hc.
    by apply roster_sound_dissolve.
Qed.

Lemma roster_sound_run (ops : list op) (s : clan_data) :
  guarded_run hash creator_is_clanless ops s = true →
  roster_sound s → roster_sound (run hash ops s).
Proof.
  revert s. induction ops as [|o ops IH]; intros s Hok Hs; [done|].
  cbn in Hok. apply andb_true_iff in Hok as [Ho Hops].
  cbn. apply IH; [done|]. by apply roster_sound_step.
Qed.

Lemma guarded_run_take (ok : clan_data → op → bool) (k : nat) (ops : list op)
    (s : clan_data) :
  guarded_run hash ok ops s = true → guarded_run hash ok (take k ops) s = true.
Proof.
  revert k s. induction ops as [|o ops IH]; intros [|k] s Hok; try done.
  cbn in *. apply andb_true_iff in Hok as [Ho Hops].
  apply andb_true_iff. split; [done|]. by apply IH.
Qed.

End Roster.

Lemma roster_sound_unique (s : clan_data) : roster_sound s → unique_membership s.
Proof.
  intros [Hrec _] p n1 n2 c1 c2 H1 H2 Hin1 Hin2.
  pose proof (Hrec _ _ _ H1 Hin1). pose proof (Hrec _ _ _ H2 Hin2). congruence.
Qed.

(** ** Unique membership *)

(** C3, as amended: starting from the empty registry, if every [CreateClan]
    call of the sequence is made by a caller without a player record, then
    after every prefix of the sequence no player id is in the members of two
    clans.  Calls that fail or raise are part of the sequence. *)
Theorem membership_unique_for_clanless_creators (hash : string → Z)
    (ops : list op) (k : nat) :
  guarded_run hash creator_is_clanless ops empty_data = true →
  unique_membership (run hash (take k ops) empty_data).
Proof.
  intros Hok. apply roster_sound_unique, roster_sound_run.
  - by apply guarded_run_take.
  - apply roster_sound_empty.
Qed.

(** C3 as stated fails: the registry lets a caller who leads clan ["A"]
    create clan ["B"], and is then listed in the members of both. *)
Lemma membership_not_unique :
  ¬ unique_membership
      (run length_hash [CreateClan 1 "A"; CreateClan 1 "B"] empty_data).
Proof.
  intros Huniq.
  specialize (Huniq 1 "A" "B" (mkClan 1 [1] [] []) (mkClan 1 [1] [] [])).
  assert ("A" = "B") as Heq; [|discriminate Heq].
  apply Huniq; try (vm_compute; reflexivity); apply list_elem_of_here.
Qed.

Lemma membership_unique_for_clanless_creators_witness :
  guarded_run length_hash creator_is_clanless
    [CreateClan 1 "A"; InviteMember 1 "bo" "A"; CreateClan 3 "B";
     ForceJoin "bo" "B"] empty_data = true
  ∧ unique_membership
      (run length_hash
         (take 4 [CreateClan 1 "A"; InviteMember 1 "bo" "A"; CreateClan 3 "B";
                  ForceJoin "bo" "B"]) empty_data).
Proof.
  split; [vm_compute; reflexivity|].
  apply (membership_unique_for_clanless_creators length_hash).
  vm_compute; reflexivity.
Defined.

(** *** The rank invariant under each outcome *)

Lemma ranks_sound_empty : ranks_sound empty_data.
Proof. split_and!; intros *; cbn; by rewrite lookup_empty. Qed.

Lemma forget_Some (key : string) (l : list Z) (ps : gmap string Player) (r : Player) :
  forget l ps !! key = Some r → ps !! key = Some r.
Proof.
  revert ps. induction l as [|x l IH]; intros ps; cbn; [done|].
  intros Hr%IH. rewrite lookup_delete in Hr. by case_decide.
Qed.

Lemma role_of_recorded (s : clan_data) (t : Z) (r : Player) :
  players s !! str t = Some r → role_of s t = role r.
Proof. intros Hr. unfold role_of. by rewrite Hr. Qed.

Lemma ranks_sound_create (l : Z) (n : string) (s : clan_data) :
  roster_sound s → ranks_sound s →
  clans s !! n = None → players s !! str l = None →
  ranks_sound (after_create l n s).
Proof.
  intros Hs (Hcl & Hroles & Hrecs) Hn Hl.
  split_and!; cbn [after_create clans players].
  - intros n0 c0 Hlook. rewrite lookup_insert in Hlook.
    case_decide as Hn0; [|by eapply Hcl].
    injection Hlook as <-. unfold clan_consistent. cbn.
    split_and!; try (intros p Hp; by apply elem_of_nil in Hp);
      try apply not_elem_of_nil; try apply NoDup_nil_2.
    apply list_elem_of_here.
  - intros n0 c0 p r Hlook Hin Hr. rewrite lookup_insert in Hlook.
    case_decide as Hn0.
    + subst n0. injection Hlook as <-. cbn in Hin.
      apply list_elem_of_singleton in Hin as ->.
      rewrite lookup_insert_eq in Hr. injection Hr as <-.
      unfold role_matches. cbn. split_and!; split; try done;
        intros Hp; by apply elem_of_nil in Hp.
    + rewrite lookup_insert_ne in Hr; [by eapply Hroles|].
      intros Heq%str_inj. subst p. by eapply roster_unrecorded.
  - intros p r Hr. rewrite lookup_insert in Hr. case_decide as Hp.
    + apply str_inj in Hp as <-. injection Hr as <-. cbn.
      rewrite lookup_insert_eq. eexists; split; [done|]. apply list_elem_of_here.
    + destruct (Hrecs _ _ Hr) as (c0 & Hc0 & Hin). exists c0.
      rewrite lookup_insert_ne; [done|]. congruence.
Qed.

Lemma ranks_sound_dissolve (n : string) (c : Clan) (s : clan_data) :
  roster_sound s → ranks_sound s → clans s !! n = Some c →
  ranks_sound (after_dissolve n c s).
Proof.
  intros Hs (Hcl & Hroles & Hrecs) Hc.
  split_and!; cbn [after_dissolve clans players].
  - intros n0 c0 Hlook. rewrite lookup_delete in Hlook.
    case_decide; [done | by eapply Hcl].
  - intros n0 c0 p r Hlook Hin Hr%forget_Some. rewrite lookup_delete in Hlook.
    case_decide; [done | by eapply Hroles].
  - intros p r Hr.
    assert (p ∉ members c) as Hout.
    { intros Hin. by rewrite (forget_gone _ _ _ Hin) in Hr. }
    apply forget_Some in Hr. destruct (Hrecs _ _ Hr) as (c0 & Hc0 & Hin).
    exists c0. split; [|done]. rewrite lookup_delete_ne; [done|].
    intros ->. rewrite Hc in Hc0. by injection Hc0 as ->.
Qed.

Lemma clan_consistent_without (t : Z) (c : Clan) :
  clan_consistent c → NoDup (mods c) → NoDup (coleaders c) → leader c ≠ t →
  clan_consistent (without t c).
Proof.
  intros (Hl & Hdisj & Hlm & Hlc & Hm & Hco) Hnm Hnc Hne.
  destruct (drop_first_NoDup t _ Hnm) as [_ Htm].
  destruct (drop_first_NoDup t _ Hnc) as [_ Htc].
  unfold clan_consistent, without. cbn. split_and!.
  - by apply drop_first_other.
  - intros p Hp%drop_first_elem_of Hp'%drop_first_elem_of. by eapply Hdisj.
  - by intros ?%drop_first_elem_of.
  - by intros ?%drop_first_elem_of.
  - intros p Hp. apply drop_first_other.
    + by intros ->.
    + by apply Hm, drop_first_elem_of with t.
  - intros p Hp. apply drop_first_other.
    + by intros ->.
    + by apply Hco, drop_first_elem_of with t.
Qed.

Lemma ranks_sound_leave (t : Z) (n : string) (c : Clan) (s : clan_data) :
  roster_sound s → ranks_sound s →
  clans s !! n = Some c → t ∈ members c → leader c ≠ t →
  ranks_sound (after_leave t n c s).
Proof.
  intros Hs Hr Hc Hin Hne. pose proof Hr as (Hcl & Hroles & Hrecs).
  destruct (Hcl _ _ Hc) as (Hcons & Hnm & Hnc).
  apply (ranks_sound_update s n c (without t c) t); try done.
  - intros p Hp. apply lookup_delete_ne. by intros ?%str_inj.
  - intros r. by apply roster_home with c.
  - intros p Hp. by apply drop_first_iff.
  - intros p Hp. by apply drop_first_iff.
  - intros p Hp. by apply drop_first_iff.
  - split_and!.
    + by apply clan_consistent_without.
    + by apply drop_first_NoDup.
    + by apply drop_first_NoDup.
  - intros r'. by rewrite lookup_delete_eq.
Qed.

Lemma ranks_sound_join (t : Z) (n : string) (c : Clan) (s : clan_data) :
  roster_sound s → ranks_sound s →
  clans s !! n = Some c → players s !! str t = None →
  ranks_sound (after_join t n c s).
Proof.
  intros Hs Hr Hc Hnone. pose proof Hr as (Hcl & Hroles & Hrecs).
  destruct (Hcl _ _ Hc) as (Hcons & Hnm & Hnc).
  pose proof (roster_unrecorded _ _ _ _ Hs Hc Hnone) as Hout.
  destruct Hcons as (Hl & Hdisj & Hlm & Hlc & Hm & Hco).
  apply (ranks_sound_update s n c (with_member t c) t); try done.
  - intros p Hp. apply lookup_insert_ne. by intros ?%str_inj.
  - intros r. by rewrite Hnone.
  - intros p Hp. by apply snoc_iff.
  - split_and!; [|done..]. unfold clan_consistent, with_member. cbn.
    split_and!; try done.
    + apply elem_of_app. by left.
    + intros p Hp. apply elem_of_app. left. by apply Hm.
    + intros p Hp. apply elem_of_app. left. by apply Hco.
  - intros r'. rewrite lookup_insert_eq. intros [= <-]. cbn.
    split_and!; [done| |].
    + apply elem_of_app. right. apply list_elem_of_here.
    + unfold role_matches. cbn. split_and!; split; try done.
      * intros ->. done.
      * intros Hp. by apply Hco in Hp.
      * intros Hp. by apply Hm in Hp.
Qed.

(** A change of the [mods] and [coleaders] of clan [n] and of the stored role
    of one of its members [t]. *)
Lemma ranks_sound_regrade (t : Z) (n r : string) (c c' : Clan) (s : clan_data) :
  roster_sound s → ranks_sound s →
  clans s !! n = Some c → t ∈ members c →
  leader c' = leader c → members c' = members c →
  (∀ p, p ≠ t → p ∈ mods c' ↔ p ∈ mods c) →
  (∀ p, p ≠ t → p ∈ coleaders c' ↔ p ∈ coleaders c) →
  clan_consistent c' ∧ NoDup (mods c') ∧ NoDup (coleaders c') →
  role_matches c' t r →
  ranks_sound (after_regrade t n c' r s).
Proof.
  intros Hs Hr Hc Hin Hleader Hmembers Hmods Hcols Hcons Hrole.
  apply (ranks_sound_update s n c c' t); try done.
  - intros p Hp. apply lookup_alter_ne. by intros ?%str_inj.
  - intros r0. by apply roster_home with c.
  - intros p Hp. by rewrite Hmembers.
  - intros r'. rewrite lookup_alter_eq.
    destruct (players s !! str t) as [r0|] eqn:Hr0; [|done].
    intros [= <-]. cbn. split_and!; [|by rewrite Hmembers|done].
    by apply roster_home with s c t.
Qed.

Lemma member_role (s : clan_data) (n : string) (c : Clan) (t : Z) :
  roster_sound s → ranks_sound s → clans s !! n = Some c → t ∈ members c →
  role_matches c t (role_of s t).
Proof.
  intros [Hrec _] (_ & Hroles & _) Hc Hin.
  pose proof (Hrec _ _ _ Hc Hin) as Hr.
  destruct (players s !! str t) as [r|] eqn:Hr0; [|done].
  rewrite (role_of_recorded _ _ _ Hr0). by eapply Hroles.
Qed.

Lemma ranks_sound_promote_mod (t : Z) (n : string) (c : Clan) (s : clan_data) :
  roster_sound s → ranks_sound s →
  clans s !! n = Some c → t ∈ members c → role_of s t = "Member" →
  ranks_sound
    (after_regrade t n
       (mkClan (leader c) (members c) (mods c ++ [t]) (coleaders c)) "Mod" s).
Proof.
  intros Hs Hr Hc Hin Hrole.
  pose proof (member_role _ _ _ _ Hs Hr Hc Hin) as (HL & HC & HM).
  rewrite Hrole in HL, HC, HM.
  assert (t ≠ leader c) as Hne by (intros Heq; by apply HL in Heq).
  assert (t ∉ coleaders c) as Hnc by (intros Hx; by apply HC in Hx).
  assert (t ∉ mods c) as Hnm by (intros Hx; by apply HM in Hx).
  pose proof Hr as (Hcl & _ & _).
  destruct (Hcl _ _ Hc) as ((Hl & Hdisj & Hlm & Hlc & Hm & Hco) & Hdm & Hdc).
  apply ranks_sound_regrade with c; cbn; try done.
  - intros p Hp. by apply snoc_iff.
  - split_and!; [|by apply NoDup_snoc_fresh|done].
    unfold clan_consistent. cbn. split_and!; try done.
    + intros p [Hp| ->%list_elem_of_singleton]%elem_of_app; [by apply Hdisj|done].
    + rewrite not_elem_of_app, list_elem_of_singleton. split; [done|congruence].
    + intros p [Hp| ->%list_elem_of_singleton]%elem_of_app; [by apply Hm|done].
  - unfold role_matches. cbn. split_and!; split; try done.
    intros _. apply elem_of_app. right. apply list_elem_of_here.
Qed.

Lemma ranks_sound_promote_coleader (t : Z) (n : string) (c : Clan) (s : clan_data) :
  roster_sound s → ranks_sound s →
  clans s !! n = Some c → t ∈ mods c → role_of s t = "Mod" →
  ranks_sound
    (after_regrade t n
       (mkClan (leader c) (members c) (drop_first t (mods c))
          (coleaders c ++ [t])) "Co-Leader" s).
Proof.
  intros Hs Hr Hc Hmod Hrole. pose proof Hr as (Hcl & _ & _).
  destruct (Hcl _ _ Hc) as ((Hl & Hdisj & Hlm & Hlc & Hm & Hco) & Hdm & Hdc).
  assert (t ∈ members c) as Hin by (by apply Hm).
  pose proof (member_role _ _ _ _ Hs Hr Hc Hin) as (HL & HC & HM).
  rewrite Hrole in HL, HC, HM.
  assert (t ≠ leader c) as Hne by (intros Heq; by apply HL in Heq).
  assert (t ∉ coleaders c) as Hnc by (intros Hx; by apply HC in Hx).
  destruct (drop_first_NoDup t _ Hdm) as [Hdm' Hgone].
  apply ranks_sound_regrade with c; cbn; try done.
  - intros p Hp. by apply drop_first_iff.
  - intros p Hp. by apply snoc_iff.
  - split_and!; [|done|by apply NoDup_snoc_fresh].
    unfold clan_consistent. cbn. split_and!; try done.
    + intros p Hp [Hp'| ->%list_elem_of_singleton]%elem_of_app; [|done].
      apply drop_first_elem_of in Hp. by eapply Hdisj.
    + by intros ?%drop_first_elem_of.
    + rewrite not_elem_of_app, list_elem_of_singleton. split; [done|congruence].
    + intros p Hp%drop_first_elem_of. by apply Hm.
    + intros p [Hp| ->%list_elem_of_singleton]%elem_of_app; [by apply Hco|done].
  - unfold role_matches. cbn. split_and!; split; try done.
    intros _. apply elem_of_app. right. apply list_elem_of_here.
Qed.

Lemma ranks_sound_demote_coleader (t : Z) (n : string) (c : Clan) (s : clan_data) :
  roster_sound s → ranks_sound s →
  clans s !! n = Some c → t ∈ coleaders c → role_of s t = "Co-Leader" →
  ranks_sound
    (after_regrade t n
       (mkClan (leader c) (members c) (mods c ++ [t])
          (drop_first t (coleaders c))) "Mod" s).
Proof.
  intros Hs Hr Hc Hcol Hrole. pose proof Hr as (Hcl & _ & _).
  destruct (Hcl _ _ Hc) as ((Hl & Hdisj & Hlm & Hlc & Hm & Hco) & Hdm & Hdc).
  assert (t ∈ members c) as Hin by (by apply Hco).
  pose proof (member_role _ _ _ _ Hs Hr Hc Hin) as (HL & HC & HM).
  rewrite Hrole in HL, HC, HM.
  assert (t ≠ leader c) as Hne by (intros Heq; by apply HL in Heq).
  assert (t ∉ mods c) as Hnm by (intros Hx; by apply HM in Hx).
  destruct (drop_first_NoDup t _ Hdc) as [Hdc' Hgone].
  apply ranks_sound_regrade with c; cbn; try done.
  - intros p Hp. by apply snoc_iff.
  - intros p Hp. by apply drop_first_iff.
  - split_and!; [|by apply NoDup_snoc_fresh|done].
    unfold clan_consistent. cbn. split_and!; try done.
    + intros p [Hp| ->%list_elem_of_singleton]%elem_of_app; [|done].
      intros Hp'%drop_first_elem_of. by eapply Hdisj.
    + rewrite not_elem_of_app, list_elem_of_singleton. split; [done|congruence].
    + by intros ?%drop_first_elem_of.
    + intros p [Hp| ->%list_elem_of_singleton]%elem_of_app; [by apply Hm|done].
    + intros p Hp%drop_first_elem_of. by apply Hco.
  - unfold role_matches. cbn. split_and!; split; try done.
    intros _. apply elem_of_app. right. apply list_elem_of_here.
Qed.

Lemma ranks_sound_demote_mod (t : Z) (n : string) (c : Clan) (s : clan_data) :
  roster_sound s → ranks_sound s →
  clans s !! n = Some c → t ∈ mods c → role_of s t = "Mod" →
  ranks_sound
    (after_regrade t n
       (mkClan (leader c) (members c) (drop_first t (mods c)) (coleaders c))
       "Member" s).
Proof.
  intros Hs Hr Hc Hmod Hrole. pose proof Hr as (Hcl & _ & _).
  destruct (Hcl _ _ Hc) as ((Hl & Hdisj & Hlm & Hlc & Hm & Hco) & Hdm & Hdc).
  assert (t ∈ members c) as Hin by (by apply Hm).
  pose proof (member_role _ _ _ _ Hs Hr Hc Hin) as (HL & HC & HM).
  rewrite Hrole in HL, HC, HM.
  assert (t ≠ leader c) as Hne by (intros Heq; by apply HL in Heq).
  assert (t ∉ coleaders c) as Hnc by (intros Hx; by apply HC in Hx).
  destruct (drop_first_NoDup t _ Hdm) as [Hdm' Hgone].
  apply ranks_sound_regrade with c; cbn; try done.
  - intros p Hp. by apply drop_first_iff.
  - split_and!; [|done..].
    unfold clan_consistent. cbn. split_and!; try done.
    + intros p Hp%drop_first_elem_of. by apply Hdisj.
    + by intros ?%drop_first_elem_of.
    + intros p Hp%drop_first_elem_of. by apply Hm.
Qed.

(** ** Consistent clans *)

Section Ranks.
Variable hash : string → Z.

Lemma within_design_creator (s : clan_data) (o : op) :
  within_design hash s o = true → creator_is_clanless s o = true.
Proof. by destruct o. Qed.

Lemma not_leader_by_role (s : clan_data) (n : string) (c : Clan) (t : Z) :
  roster_sound s → ranks_sound s → clans s !! n = Some c → t ∈ members c →
  role_of s t ≠ "Leader" → leader c ≠ t.
Proof.
  intros Hs Hr Hc Hin Hrole Heq.
  destruct (member_role _ _ _ _ Hs Hr Hc Hin) as (HL & _). by apply Hrole, HL.
Qed.

Lemma ranks_sound_step (s : clan_data) (o : op) :
  within_design hash s o = true → roster_sound s → ranks_sound s →
  ranks_sound (step hash s o).
Proof.
  intros Hok Hs Hr. destruct o.
  - apply create_clan_cases; [done|]. intros Hn.
    apply ranks_sound_create; [done..|].
    cbn in Hok. by apply bool_decide_eq_true in Hok.
  - apply kick_member_cases; [done|]. intros c Hc Hin Hne.
    by apply ranks_sound_leave.
  - apply invite_member_cases; [done|]. intros c Hc Hnone.
    by apply ranks_sound_join.
  - apply disband_clan_cases; [done|]. intros c Hc.
    by apply ranks_sound_dissolve.
  - cbn [within_design] in Hok.
    apply promote_member_cases; [done|..]; intros c Hc.
    + intros -> Hrole. rewrite Hrole, Hc in Hok. cbn in Hok.
      rewrite orb_false_r in Hok. apply bool_decide_eq_true in Hok.
      by apply ranks_sound_promote_mod.
    + intros -> Hrole. rewrite Hrole in Hok. by cbn in Hok.
    + intros _ Hrole Hmod. by apply ranks_sound_promote_coleader.
  - apply demote_member_cases; [done|..]; intros c Hc Hrole Hin.
    + by apply ranks_sound_demote_coleader.
    + by apply ranks_sound_demote_mod.
  - cbn in Hok. apply bool_decide_eq_true in Hok.
    apply force_kick_cases; [done|]. intros r c Hrec Hc Hin.
    apply ranks_sound_leave; try done. by eapply not_leader_by_role.
  - cbn in Hok. apply bool_decide_eq_true in Hok.
    apply force_join_cases; [done|..].
    + intros c Hc Hnone. by apply ranks_sound_join.
    + intros r c0 c Hrec Hc0 Hin Hc.
      assert (leader c0 ≠ find_player_id_by_name hash target_name) as Hne
        by (by eapply not_leader_by_role).
      apply ranks_sound_join.
      * by apply roster_sound_leave.
      * by apply ranks_sound_leave.
      * done.
      * cbn. apply lookup_delete_eq.
  - apply delete_clan_cases; [done|]. intros c Hc.
    by apply ranks_sound_dissolve.
Qed.

Lemma sound_run (ops : list op) (s : clan_data) :
  guarded_run hash (within_design hash) ops s = true →
  roster_sound s → ranks_sound s →
  roster_sound (run hash ops s) ∧ ranks_sound (run hash ops s).
Proof.
  revert s. induction ops as [|o ops IH]; intros s Hok Hs Hr; [done|].
  cbn in Hok. apply andb_true_iff in Hok as [Ho Hops].
  cbn. apply IH; [done| |].
  - apply roster_sound_step; [by apply within_design_creator | done].
  - by apply ranks_sound_step.
Qed.

(** C2, as amended: starting from the empty registry, after a sequence of
    calls each of which is within the design ([within_design]), every clan
    present has its leader among its members, disjoint [mods] and
    [coleaders], its leader in neither, and both lists inside [members].
    Calls that fail or raise are part of the sequence. *)
Theorem clans_consistent_within_design (ops : list op) :
  guarded_run hash (within_design hash) ops empty_data = true →
  clans_consistent (run hash ops empty_data).
Proof.
  intros Hok.
  destruct (sound_run ops empty_data Hok roster_sound_empty ranks_sound_empty)
    as [_ (Hcl & _)].
  intros n c Hc. by destruct (Hcl n c Hc).
Qed.

End Ranks.

(** C2 as stated fails: [force_kick] takes the leader of clan ["A"] off its
    members and leaves the clan in the registry. *)
Lemma leader_can_be_force_kicked :
  ¬ clans_consistent (run length_hash [CreateClan 2 "A"; ForceKick "bo"] empty_data).
Proof.
  intros Hcons. destruct (Hcons "A" (mkClan 2 [] [] [])) as [Hl _].
  - vm_compute. reflexivity.
  - cbn in Hl. by apply elem_of_nil in Hl.
Qed.

(** The promotion of a Member straight to Co-Leader lists the player in both
    [mods] and [coleaders]. *)
Example coleader_promotion_overlaps :
  clans (run length_hash
           [CreateClan 1 "A"; InviteMember 1 "bo" "A";
            PromoteMember 1 "bo" "A" "Co-Leader"] empty_data) !! "A"
  = Some (mkClan 1 [1; 2] [2] [2]).
Proof. vm_compute. reflexivity. Qed.

(** A Member of clan ["B"] promoted through clan ["A"] is listed in the
    [mods] of ["A"] without being one of its members. *)
Example promotion_across_clans :
  clans (run length_hash
           [CreateClan 1 "A"; CreateClan 3 "B"; InviteMember 3 "bo" "B";
            PromoteMember 1 "bo" "A" "Mod"] empty_data) !! "A"
  = Some (mkClan 1 [1] [2] []).
Proof. vm_compute. reflexivity. Qed.

(** A caller who leads clan ["A"] creates and disbands clan ["B"], which
    deletes the caller's record; invited into ["A"] again and promoted, the
    leader of ["A"] is one of its mods. *)
Example clanned_creator_becomes_mod :
  clans (run length_hash
           [CreateClan 1 "A"; CreateClan 1 "B"; DisbandClan 1 "B";
            InviteMember 1 "a" "A"; PromoteMember 1 "a" "A" "Mod"] empty_data) !! "A"
  = Some (mkClan 1 [1; 1] [1] []).
Proof. vm_compute. reflexivity. Qed.

Lemma clans_consistent_within_design_witness :
  guarded_run length_hash (within_design length_hash)
    [CreateClan 1 "A"; InviteMember 1 "bo" "A"; PromoteMember 1 "bo" "A" "Mod";
     PromoteMember 1 "bo" "A" "Co-Leader"; DemoteMember 1 "bo" "A";
     CreateClan 3 "B"; ForceJoin "bo" "B"; KickMember 3 "bo" "B"]
    empty_data = true
  ∧ clans_consistent
      (run length_hash
         [CreateClan 1 "A"; InviteMember 1 "bo" "A"; PromoteMember 1 "bo" "A" "Mod";
          PromoteMember 1 "bo" "A" "Co-Leader"; DemoteMember 1 "bo" "A";
          CreateClan 3 "B"; ForceJoin "bo" "B"; KickMember 3 "bo" "B"]
         empty_data).
Proof.
  split; [vm_compute; reflexivity|].
  apply (clans_consistent_within_design length_hash).
  vm_compute; reflexivity.
Defined.

(** ** Calls that raise *)

Section Raising.
Variable hash : string → Z.

(** C4 fails on the code: promoting to Mod a target that is found but has no
    player record appends the target to the clan's [mods] and then raises
    [KeyError] at the assignment of the role, instead of returning a pair. *)
Theorem promote_member_raises_for_unrecorded_target (promoter_id : Z)
    (target_name clan_name : string) (s : clan_data) (c : Clan) :
  let target_id := find_player_id_by_name hash target_name in
  clans s !! clan_name = Some c →
  target_id ≠ 0 →
  has_permission promoter_id clan_name "promote_demote" s = Val true s →
  players s !! str target_id = None →
  promote_member hash promoter_id target_name clan_name "Mod" s
  = Exc KeyError
      (mkData
         (<[clan_name := mkClan (leader c) (members c) (mods c ++ [target_id])
                           (coleaders c)]> (clans s))
         (players s)).
Proof.
  intros target_id Hc H0 Hperm Hnone.
  rewrite (has_permission_existing _ _ _ _ _ Hc) in Hperm.
  injection Hperm as Hperm.
  unfold promote_member. fold target_id.
  rewrite (bool_decide_eq_false_2 _ H0). py_simp. rewrite Hperm. py_simp.
  unfold role_of. rewrite Hnone. cbn [fmap option_fmap option_map default].
  rewrite !bool_decide_eq_true_2 by done. py_simp.
  unfold mods_append, list_append. py_simp. reflexivity.
Qed.

End Raising.

Lemma promote_member_raises_for_unrecorded_target_witness :
  clan_A = run length_hash [CreateClan 1 "A"] empty_data
  ∧ promote_member length_hash 1 "bo" "A" "Mod" clan_A
    = Exc KeyError
        (mkData {[ "A" := mkClan 1 [1] [2] [] ]}
                {[ "1" := mkPlayer "A" "Leader" ]}).
Proof.
  split; [reflexivity|].
  rewrite (promote_member_raises_for_unrecorded_target length_hash 1 "bo" "A"
             clan_A (mkClan 1 [1] [] [])).
  - vm_compute. reflexivity.
  - vm_compute. reflexivity.
  - vm_compute. discriminate.
  - vm_compute. reflexivity.
  - vm_compute. reflexivity.
Defined.

(** A Mod of clan ["B"] demoted through clan ["A"]: [ValueError]. *)
Example demote_member_raises_across_clans :
  ∃ s, exec length_hash (DemoteMember 1 "bo" "A")
         (run length_hash
            [CreateClan 1 "A"; CreateClan 3 "B"; InviteMember 3 "bo" "B";
             PromoteMember 3 "bo" "B" "Mod"] empty_data)
       = Exc ValueError s.
Proof. eexists. vm_compute. reflexivity. Qed.

(** * Further properties of the registry *)

(** ** Creating and dissolving clans *)

(** X1: [create_clan] never raises.  On a taken name it fails and changes
    nothing; on a free name it stores the clan with the caller as leader and
    only member, and afterwards the caller's clan is the new one, the caller's
    role is Leader and the name is taken for every later caller. *)
Theorem create_clan_spec (leader_id : Z) (clan_name : string) (s : clan_data) :
  (is_Some (clans s !! clan_name) →
   create_clan leader_id clan_name s = Val (false, "Clan name already exists") s) ∧
  (clans s !! clan_name = None →
   let s' := after_create leader_id clan_name s in
   create_clan leader_id clan_name s
   = Val (true, "Clan '" +:+ clan_name +:+ "' created successfully!") s' ∧
   get_player_clan leader_id s' = Val (Some clan_name) s' ∧
   get_player_role leader_id s' = Val "Leader" s' ∧
   is_leader leader_id clan_name s' = Val true s' ∧
   ∀ other_id, create_clan other_id clan_name s'
               = Val (false, "Clan name already exists") s').
Proof.
  split.
  - intros Hn. unfold create_clan. py_simp. by rewrite bool_decide_eq_true_2.
  - intros Hn s'. split_and!.
    + unfold create_clan. py_simp.
      try rewrite bool_decide_eq_false_2 by (by intros [? ?]).
      py_simp. reflexivity.
    + unfold get_player_clan, s', after_create. cbn [players].
      by rewrite lookup_insert_eq.
    + unfold get_player_role, s', after_create. cbn [players].
      by rewrite lookup_insert_eq.
    + unfold is_leader, s', after_create. py_simp. unfold ret.
      by rewrite bool_decide_eq_true_2.
    + intros other_id. unfold create_clan, s', after_create. py_simp.
      by rewrite bool_decide_eq_true_2 by eauto.
Qed.

(** X2: [disband_clan] on an existing clan returns: it refuses any caller but
    the leader, and for the leader it deletes the clan and the record of every
    player on its members list, leaving every other record as it was. *)
Theorem disband_clan_spec (leader_id : Z) (clan_name : string) (s : clan_data)
    (c : Clan) :
  clans s !! clan_name = Some c →
  (leader c ≠ leader_id →
   disband_clan leader_id clan_name s
   = Val (false, "Only the clan leader can disband the clan") s) ∧
  (leader c = leader_id →
   ∃ s', disband_clan leader_id clan_name s
         = Val (true, "Clan '" +:+ clan_name +:+ "' has been disbanded") s' ∧
         clans s' = delete clan_name (clans s) ∧
         (∀ m, m ∈ members c → players s' !! str m = None) ∧
         (∀ p, p ∉ members c → players s' !! str p = players s !! str p)).
Proof.
  intros Hc. split.
  - intros Hne. unfold disband_clan. py_simp.
    by rewrite (bool_decide_eq_false_2 _ Hne).
  - intros Heq. exists (after_dissolve clan_name c s). split_and!.
    + unfold disband_clan. py_simp. rewrite (bool_decide_eq_true_2 _ Heq).
      py_simp. reflexivity.
    + done.
    + intros m Hm. by apply forget_gone.
    + intros p Hp. apply forget_other. intros m Hm Heq'%str_inj. by subst.
Qed.

(** X3: [delete_clan] never raises: an unknown name is refused with "Clan not
    found", and a known clan is deleted together with the record of every
    player on its members list, whoever asks. *)
Theorem delete_clan_spec (clan_name : string) (s : clan_data) :
  (clans s !! clan_name = None →
   delete_clan clan_name s = Val (false, "Clan not found") s) ∧
  (∀ c, clans s !! clan_name = Some c →
   delete_clan clan_name s
   = Val (true, "Clan '" +:+ clan_name +:+ "' has been deleted")
         (after_dissolve clan_name c s) ∧
   (∀ m, m ∈ members c →
         players (after_dissolve clan_name c s) !! str m = None)).
Proof.
  split.
  - intros Hn. unfold delete_clan. py_simp.
    by try rewrite bool_decide_eq_false_2 by (by intros [? ?]).
  - intros c Hc. split.
    + unfold delete_clan. py_simp. rewrite bool_decide_eq_true_2 by eauto.
      py_simp. reflexivity.
    + intros m Hm. by apply forget_gone.
Qed.

(** ** The staff moves *)

Section Staff.
Variable hash : string → Z.

(** The branches of [force_kick], run through, the registry after the kick
    written as [after_leave]. *)
Lemma force_kick_outcome (target_name : string) (s : clan_data) :
  let t := find_player_id_by_name hash target_name in
  let call := force_kick hash target_name s in
  (t = 0 → call = Val (false, "Player not found") s) ∧
  (t ≠ 0 → players s !! str t = None →
   call = Val (false, "Player is not in any clan") s) ∧
  (∀ r, t ≠ 0 → players s !! str t = Some r →
     (clans s !! clan r = None → call = Exc KeyError s) ∧
     (∀ c, clans s !! clan r = Some c →
        (t ∉ members c → call = Exc ValueError s) ∧
        (t ∈ members c →
           call = Val (true, "Force kicked " +:+ target_name +:+ " from " +:+ clan r)
                      (after_leave t (clan r) c s)))).
Proof.
  intros t call. subst call. unfold force_kick. fold t. split_and!.
  - intros H0. by rewrite bool_decide_eq_true_2.
  - intros H0 Hr. rewrite (bool_decide_eq_false_2 _ H0). py_simp.
    by try rewrite bool_decide_eq_false_2 by (by intros [? ?]).
  - intros r H0 Hr. rewrite (bool_decide_eq_false_2 _ H0). py_simp.
    rewrite bool_decide_eq_true_2 by eauto. py_simp. split.
    + intros Hc. by rewrite Hc.
    + intros c Hc. rewrite Hc. split.
      * intros Hout. unfold members_remove.
        apply list_remove_None in Hout. by rewrite Hout.
      * intros Hin. rewrite (members_remove_eq _ _ Hin). py_simp.
        rewrite mods_discard_eq. py_simp. rewrite coleaders_discard_eq. py_simp.
        reflexivity.
Qed.

(** X4: every outcome of [force_kick].  A name that is not found or a player
    without a record is refused; a record naming a clan that does not exist
    raises [KeyError] and a record naming a clan that does not list the player
    raises [ValueError], both with the registry untouched.  Otherwise the
    call succeeds, leader or not: in the clan the record names the first
    occurrence of the player is cut out of [members], and out of [mods] and
    of [coleaders] where the player is listed, nothing else in that clan
    changes, and the record is deleted; the player is then absent from each
    of the three lists that named it at most once. *)
Theorem force_kick_spec (target_name : string) (s : clan_data) :
  let t := find_player_id_by_name hash target_name in
  let call := force_kick hash target_name s in
  (t = 0 → call = Val (false, "Player not found") s) ∧
  (t ≠ 0 → players s !! str t = None →
   call = Val (false, "Player is not in any clan") s) ∧
  (∀ r, t ≠ 0 → players s !! str t = Some r →
     (clans s !! clan r = None → call = Exc KeyError s) ∧
     (∀ c, clans s !! clan r = Some c →
        (t ∉ members c → call = Exc ValueError s) ∧
        (t ∈ members c →
           ∃ ms mo co,
             first_removed t (members c) ms ∧
             discarded t (mods c) mo ∧
             discarded t (coleaders c) co ∧
             call = Val (true, "Force kicked " +:+ target_name +:+ " from " +:+ clan r)
                        (mkData (<[clan r := mkClan (leader c) ms mo co]> (clans s))
                                (delete (str t) (players s))) ∧
             (NoDup (members c) → t ∉ ms) ∧
             (NoDup (mods c) → t ∉ mo) ∧
             (NoDup (coleaders c) → t ∉ co)))).
Proof.
  intros t call.
  destruct (force_kick_outcome target_name s) as (Hnone & Hclanless & Hrec).
  split; [exact Hnone|]. split; [exact Hclanless|].
  intros r H0 Hr. destruct (Hrec r H0 Hr) as [Hkey Hclan].
  split; [exact Hkey|].
  intros c Hc. destruct (Hclan c Hc) as [Hout Hin]. split; [exact Hout|].
  intros Ht. eexists _, _, _.
  split; [by apply drop_first_first_removed|].
  split; [apply drop_first_discarded|]. split; [apply drop_first_discarded|].
  split; [by apply Hin|].
  split_and!; intros Hnd.
  - eapply first_removed_NoDup; [done|]. by apply drop_first_first_removed.
  - eapply discarded_NoDup; [done|]. apply drop_first_discarded.
  - eapply discarded_NoDup; [done|]. apply drop_first_discarded.
Qed.

(** The branches of [force_join] into a known clan, run through, the
    registries written as [after_join] and [after_leave]. *)
Lemma force_join_outcome (target_name clan_name : string) (s : clan_data) (c : Clan) :
  let t := find_player_id_by_name hash target_name in
  let call := force_join hash target_name clan_name s in
  let joined := "Force joined " +:+ target_name +:+ " to " +:+ clan_name in
  clans s !! clan_name = Some c → t ≠ 0 →
  (players s !! str t = None → call = Val (true, joined) (after_join t clan_name c s)) ∧
  (∀ r, players s !! str t = Some r →
     (clans s !! clan r = None → call = Exc KeyError s) ∧
     (∀ c0, clans s !! clan r = Some c0 →
        (t ∉ members c0 → call = Exc ValueError s) ∧
        (t ∈ members c0 →
           ∃ c1, clans (after_leave t (clan r) c0 s) !! clan_name = Some c1 ∧
                 c1 = (if bool_decide (clan r = clan_name) then without t c0 else c) ∧
                 call = Val (true, joined)
                          (after_join t clan_name c1
                             (after_leave t (clan r) c0 s))))) ∧
  (∀ s', call = Val (true, joined) s' →
     players s' !! str t = Some (mkPlayer clan_name "Member") ∧
     ∃ c', clans s' !! clan_name = Some c' ∧ t ∈ members c').
Proof.
  intros t call joined Hc H0.
  assert (∀ r c0 c1, players s !! str t = Some r → clans s !! clan r = Some c0 →
            t ∈ members c0 →
            clans (after_leave t (clan r) c0 s) !! clan_name = Some c1 →
            call = Val (true, joined)
                     (after_join t clan_name c1 (after_leave t (clan r) c0 s)))
    as Hmove.
  { intros r c0 c1 Hr Hc0 Hin Hc1. subst call. unfold force_join. fold t.
    rewrite (bool_decide_eq_false_2 _ H0). py_simp.
    rewrite bool_decide_eq_true_2 by eauto. py_simp.
    rewrite bool_decide_eq_true_2 by eauto.
    unfold bind at 1. py_simp.
    rewrite (members_remove_eq _ _ Hin). py_simp.
    rewrite mods_discard_eq. py_simp.
    unfold on_clan at 1. py_simp. rewrite coleaders_discard_eq. py_simp.
    fold (without t c0). unfold after_leave in Hc1. cbn [clans] in Hc1.
    rewrite Hc1. py_simp. unfold members_append, list_append. py_simp.
    unfold after_join, after_leave, with_member. cbn [clans players].
    by rewrite insert_delete_eq. }
  assert (players s !! str t = None →
          call = Val (true, joined) (after_join t clan_name c s)) as Hfresh.
  { intros Hr. subst call. unfold force_join. fold t.
    rewrite (bool_decide_eq_false_2 _ H0). py_simp.
    rewrite bool_decide_eq_true_2 by eauto. py_simp.
    try rewrite bool_decide_eq_false_2 by (by intros [? ?]). py_simp.
    unfold members_append, list_append. py_simp. reflexivity. }
  assert (∀ r c0, players s !! str t = Some r → clans s !! clan r = Some c0 →
            clans (after_leave t (clan r) c0 s) !! clan_name
            = Some (if bool_decide (clan r = clan_name) then without t c0 else c))
    as Hdest.
  { intros r c0 Hr Hc0. unfold after_leave. cbn [clans].
    rewrite lookup_insert. case_decide as Hn.
    - by rewrite bool_decide_eq_true_2.
    - by rewrite bool_decide_eq_false_2. }
  split_and!.
  - done.
  - intros r Hr. split.
    + intros Hc0. subst call. unfold force_join. fold t.
      rewrite (bool_decide_eq_false_2 _ H0). py_simp.
      rewrite bool_decide_eq_true_2 by eauto. py_simp.
      rewrite bool_decide_eq_true_2 by eauto.
      unfold bind at 1. py_simp. reflexivity.
    + intros c0 Hc0. split.
      * intros Hout. subst call. unfold force_join. fold t.
        rewrite (bool_decide_eq_false_2 _ H0). py_simp.
        rewrite bool_decide_eq_true_2 by eauto. py_simp.
        rewrite bool_decide_eq_true_2 by eauto.
        unfold bind at 1. py_simp. unfold members_remove.
        apply list_remove_None in Hout. by rewrite Hout.
      * intros Hin. eexists. split; [by apply Hdest|]. split; [done|].
        apply Hmove; [done..|]. by apply Hdest.
  - intros s' Hcall.
    destruct (players s !! str t) as [r|] eqn:Hr.
    + destruct (clans s !! clan r) as [c0|] eqn:Hc0.
      * destruct (decide (t ∈ members c0)) as [Hin|Hout].
        -- rewrite (Hmove r c0 _ eq_refl Hc0 Hin (Hdest r c0 eq_refl Hc0)) in Hcall.
           injection Hcall as <-. unfold after_join. cbn [clans players].
           rewrite !lookup_insert_eq. split; [done|]. eexists. split; [done|].
           unfold with_member. cbn. apply elem_of_app. right.
           apply list_elem_of_here.
        -- exfalso. subst call. unfold force_join in Hcall. fold t in Hcall.
           rewrite (bool_decide_eq_false_2 _ H0) in Hcall.
           revert Hcall. py_simp.
           rewrite bool_decide_eq_true_2 by eauto. py_simp.
           rewrite bool_decide_eq_true_2 by eauto.
           unfold bind at 1. py_simp. unfold members_remove.
           apply list_remove_None in Hout. by rewrite Hout.
      * exfalso. subst call. unfold force_join in Hcall. fold t in Hcall.
        rewrite (bool_decide_eq_false_2 _ H0) in Hcall.
        revert Hcall. py_simp.
        rewrite bool_decide_eq_true_2 by eauto. py_simp.
        rewrite bool_decide_eq_true_2 by eauto.
        unfold bind at 1. py_simp. done.
    + rewrite (Hfresh eq_refl) in Hcall. injection Hcall as <-.
      unfold after_join. cbn [clans players].
      rewrite !lookup_insert_eq. split; [done|]. eexists. split; [done|].
      unfold with_member. cbn. apply elem_of_app. right. apply list_elem_of_here.
Qed.

(** X5: [force_join] of a found player into a known clan.  A player without
    a record is appended to the clan's members.  A player with a record first
    leaves the clan the record names: the call raises, with the registry
    untouched, when that clan does not exist ([KeyError]) or does not list the
    player ([ValueError]); otherwise the first occurrence of the player is cut
    out of that clan's [members], and out of its [mods] and [coleaders] where
    the player is listed (so the player is off each list that named it at most
    once), and the player is appended to the destination's members, which is
    the clan just left when the record names the destination itself.  The
    record becomes (destination, Member).  Whenever the call succeeds the
    player has that record and is on the destination's members list. *)
Theorem force_join_spec (target_name clan_name : string) (s : clan_data) (c : Clan) :
  let t := find_player_id_by_name hash target_name in
  let call := force_join hash target_name clan_name s in
  let joined := "Force joined " +:+ target_name +:+ " to " +:+ clan_name in
  clans s !! clan_name = Some c → t ≠ 0 →
  (players s !! str t = None →
     call = Val (true, joined)
              (mkData
                 (<[clan_name := mkClan (leader c) (members c ++ [t]) (mods c)
                                   (coleaders c)]> (clans s))
                 (<[str t := mkPlayer clan_name "Member"]> (players s)))) ∧
  (∀ r, players s !! str t = Some r →
     (clans s !! clan r = None → call = Exc KeyError s) ∧
     (∀ c0, clans s !! clan r = Some c0 →
        (t ∉ members c0 → call = Exc ValueError s) ∧
        (t ∈ members c0 →
           ∃ ms mo co,
             first_removed t (members c0) ms ∧
             discarded t (mods c0) mo ∧
             discarded t (coleaders c0) co ∧
             (NoDup (members c0) → t ∉ ms) ∧
             (NoDup (mods c0) → t ∉ mo) ∧
             (NoDup (coleaders c0) → t ∉ co) ∧
             (clan r ≠ clan_name →
                call = Val (true, joined)
                         (mkData
                            (<[clan_name := mkClan (leader c) (members c ++ [t])
                                              (mods c) (coleaders c)]>
                               (<[clan r := mkClan (leader c0) ms mo co]> (clans s)))
                            (<[str t := mkPlayer clan_name "Member"]> (players s)))) ∧
             (clan r = clan_name →
                call = Val (true, joined)
                         (mkData
                            (<[clan_name := mkClan (leader c0) (ms ++ [t]) mo co]>
                               (clans s))
                            (<[str t := mkPlayer clan_name "Member"]>
                               (players s))))))) ∧
  (∀ s', call = Val (true, joined) s' →
     players s' !! str t = Some (mkPlayer clan_name "Member") ∧
     ∃ c', clans s' !! clan_name = Some c' ∧ t ∈ members c').
Proof.
  intros t call joined Hc H0.
  destruct (force_join_outcome target_name clan_name s c Hc H0)
    as (Hfresh & Hrec & Hpost).
  split; [exact Hfresh|]. split; [|exact Hpost].
  intros r Hr. destruct (Hrec r Hr) as [Hkey Hclan]. split; [exact Hkey|].
  intros c0 Hc0. destruct (Hclan c0 Hc0) as [Hout Hin]. split; [exact Hout|].
  intros Ht. destruct (Hin Ht) as (c1 & _ & -> & Hcall).
  exists (drop_first (find_player_id_by_name hash target_name) (members c0)),
    (drop_first (find_player_id_by_name hash target_name) (mods c0)),
    (drop_first (find_player_id_by_name hash target_name) (coleaders c0)).
  split; [by apply drop_first_first_removed|].
  split; [apply drop_first_discarded|]. split; [apply drop_first_discarded|].
  split_and!.
  - intros Hnd. eapply first_removed_NoDup; [done|].
    by apply drop_first_first_removed.
  - intros Hnd. eapply discarded_NoDup; [done|]. apply drop_first_discarded.
  - intros Hnd. eapply discarded_NoDup; [done|]. apply drop_first_discarded.
  - intros Hne. rewrite (bool_decide_eq_false_2 _ Hne) in Hcall.
    etrans; [exact Hcall|].
    unfold after_join, after_leave, with_member, without.
    cbn [clans players]. by rewrite insert_delete_eq.
  - intros Heq. rewrite (bool_decide_eq_true_2 _ Heq) in Hcall.
    etrans; [exact Hcall|].
    unfold after_join, after_leave, with_member, without.
    cbn [clans players leader members mods coleaders].
    by rewrite insert_delete_eq, Heq, insert_insert_eq.
Qed.

End Staff.

(** ** Unknown clans *)

Section Unknown.
Variable hash : string → Z.

(** X6: a clan name that is not in the registry.  The member operations do
    not test for it: once past their first checks they raise [KeyError] and
    leave the registry as it was.  The staff operations [force_join] and
    [delete_clan] test for it and answer "Clan not found". *)
Theorem unknown_clan_outcomes (caller_id : Z) (target_name clan_name to_role : string)
    (s : clan_data) :
  let t := find_player_id_by_name hash target_name in
  clans s !! clan_name = None →
  disband_clan caller_id clan_name s = Exc KeyError s ∧
  (t ≠ 0 →
   invite_member hash caller_id target_name clan_name s = Exc KeyError s ∧
   promote_member hash caller_id target_name clan_name to_role s = Exc KeyError s ∧
   demote_member hash caller_id target_name clan_name s = Exc KeyError s ∧
   force_join hash target_name clan_name s = Val (false, "Clan not found") s) ∧
  (t ≠ 0 → t ≠ caller_id →
   kick_member hash caller_id target_name clan_name s = Exc KeyError s) ∧
  delete_clan clan_name s = Val (false, "Clan not found") s.
Proof.
  intros t Hn. split_and!.
  - unfold disband_clan. by py_simp.
  - intros H0. split_and!.
    + unfold invite_member. fold t. rewrite (bool_decide_eq_false_2 _ H0).
      by py_simp.
    + unfold promote_member. fold t. rewrite (bool_decide_eq_false_2 _ H0).
      by py_simp.
    + unfold demote_member. fold t. rewrite (bool_decide_eq_false_2 _ H0).
      by py_simp.
    + unfold force_join. fold t. rewrite (bool_decide_eq_false_2 _ H0).
      py_simp. by try rewrite bool_decide_eq_false_2 by (by intros [? ?]).
  - intros H0 Hself. unfold kick_member. fold t.
    rewrite (bool_decide_eq_false_2 _ H0), (bool_decide_eq_false_2 _ Hself).
    by py_simp.
  - unfold delete_clan. py_simp.
    by try rewrite bool_decide_eq_false_2 by (by intros [? ?]).
Qed.

End Unknown.

Lemma unknown_clan_outcomes_witness :
  clans clan_A !! "B" = None
  ∧ kick_member length_hash 1 "bo" "B" clan_A = Exc KeyError clan_A
  ∧ delete_clan "B" clan_A = Val (false, "Clan not found") clan_A.
Proof.
  split; [vm_compute; reflexivity|].
  destruct (unknown_clan_outcomes length_hash 1 "bo" "B" "Mod" clan_A)
    as (_ & _ & Hkick & Hdelete); [vm_compute; reflexivity|].
  split; [|exact Hdelete].
  apply Hkick; vm_compute; discriminate.
Defined.

(** ** What a single call preserves *)

Section Preserved.
Variable hash : string → Z.

Lemma lookup_insert_same_leader (cs : gmap string Clan) (n n0 : string)
    (c c1 c' : Clan) :
  cs !! n = Some c → leader c1 = leader c →
  (∀ c0, cs !! n0 = Some c0 → leader c0 = leader c') →
  ∀ c0, <[n := c1]> cs !! n0 = Some c0 → leader c0 = leader c'.
Proof.
  intros Hc Hl Hold c0. rewrite lookup_insert. case_decide as Hn.
  - subst n0. intros [= <-]. rewrite Hl. by apply Hold.
  - apply Hold.
Qed.

(** X7: no call changes the leader of a clan: a clan that is in the registry
    before and after a call has the same leader. *)
Theorem leader_never_changes (o : op) (s : clan_data) (n : string) (c c' : Clan) :
  clans s !! n = Some c → clans (step hash s o) !! n = Some c' →
  leader c' = leader c.
Proof.
  intros Hc. revert c'.
  assert (∀ c0, clans s !! n = Some c0 → leader c0 = leader c) as Hs
    by (intros c0 Hc0; congruence).
  destruct o.
  - apply create_clan_cases; [done|]. intros Hn c'. cbn.
    rewrite lookup_insert. case_decide; [congruence | apply Hs].
  - apply kick_member_cases; [done|]. intros c1 Hc1 _ _. cbn.
    by apply lookup_insert_same_leader with c1.
  - apply invite_member_cases; [done|]. intros c1 Hc1 _. cbn.
    by apply lookup_insert_same_leader with c1.
  - apply disband_clan_cases; [done|]. intros c1 Hc1 c'. cbn.
    rewrite lookup_delete. case_decide; [done | apply Hs].
  - apply promote_member_cases; [done|..].
    + intros c1 Hc1 _ _. cbn. by apply lookup_insert_same_leader with c1.
    + intros c1 Hc1 _ _. cbn. by apply lookup_insert_same_leader with c1.
    + intros c1 Hc1 _ _ _. cbn. by apply lookup_insert_same_leader with c1.
  - apply demote_member_cases; [done|..]; intros c1 Hc1 _ _; cbn;
      by apply lookup_insert_same_leader with c1.
  - apply force_kick_cases; [done|]. intros r c1 _ Hc1 _. cbn.
    by apply lookup_insert_same_leader with c1.
  - apply force_join_cases; [done|..].
    + intros c1 Hc1 _. cbn. by apply lookup_insert_same_leader with c1.
    + intros r c0 c1 _ Hc0 _ Hc1. cbn in *.
      apply lookup_insert_same_leader with c1; [done..|].
      by apply lookup_insert_same_leader with c0.
  - apply delete_clan_cases; [done|]. intros c1 Hc1 c'. cbn.
    rewrite lookup_delete. case_decide; [done | apply Hs].
Qed.

(** X8: only [create_clan], [disband_clan] and [delete_clan] add a clan to
    the registry or take one out: after any other call, raising or not, the
    registry holds exactly the clan names it held before. *)
Theorem clan_names_kept (o : op) (s : clan_data) (n : string) :
  opens_or_closes o = false →
  is_Some (clans (step hash s o) !! n) ↔ is_Some (clans s !! n).
Proof.
  intros Ho.
  assert (∀ n1 (c c1 : Clan) (cs : gmap string Clan), cs !! n1 = Some c →
            is_Some (<[n1 := c1]> cs !! n) ↔ is_Some (cs !! n)) as Hkeep.
  { intros n1 c c1 cs Hc. rewrite lookup_insert. case_decide; [|done].
    subst. rewrite Hc. split; eauto. }
  destruct o; try done.
  - apply kick_member_cases; [done|]. intros c Hc _ _. by apply Hkeep with c.
  - apply invite_member_cases; [done|]. intros c Hc _. by apply Hkeep with c.
  - apply promote_member_cases; [done|..]; intros c Hc; intros;
      by apply Hkeep with c.
  - apply demote_member_cases; [done|..]; intros c Hc; intros;
      by apply Hkeep with c.
  - apply force_kick_cases; [done|]. intros r c _ Hc _. by apply Hkeep with c.
  - apply force_join_cases; [done|..].
    + intros c Hc _. by apply Hkeep with c.
    + intros r c0 c _ Hc0 _ Hc. cbn in *.
      rewrite (Hkeep _ _ _ _ Hc). by apply Hkeep with c0.
Qed.

(** X9: promotion and demotion never change who is in which clan: after
    [promote_member] or [demote_member], raising or not, every members list
    and the clan named by every player record are as before. *)
Theorem regrading_keeps_membership (o : op) (s : clan_data) :
  regrades o = true →
  (∀ n, members <$> clans (step hash s o) !! n = members <$> clans s !! n) ∧
  (∀ key, clan <$> players (step hash s o) !! key = clan <$> players s !! key).
Proof.
  intros Ho.
  assert (∀ t n r (c c' : Clan), clans s !! n = Some c → members c' = members c →
    (∀ n0, members <$> clans (after_regrade t n c' r s) !! n0
           = members <$> clans s !! n0) ∧
    (∀ key, clan <$> players (after_regrade t n c' r s) !! key
            = clan <$> players s !! key)) as Hregrade.
  { intros t n r c c' Hc Hm. split.
    - intros n0. cbn. rewrite lookup_insert. case_decide; [|done].
      subst. rewrite Hc. cbn. by rewrite Hm.
    - intros key. cbn. apply lookup_regrade_clan. }
  destruct o; try done.
  - apply promote_member_cases; [done|..]; intros c Hc; intros;
      by apply Hregrade with c.
  - apply demote_member_cases; [done|..]; intros c Hc; intros;
      by apply Hregrade with c.
Qed.

Lemma leaders_present_insert (s : clan_data) (n : string) (c' : Clan)
    (ps : gmap string Player) :
  leaders_present s → leader c' ∈ members c' →
  leaders_present (mkData (<[n := c']> (clans s)) ps).
Proof.
  intros Hs Hl n0 c0. cbn. rewrite lookup_insert.
  case_decide; [by intros [= <-] | apply Hs].
Qed.

Lemma leaders_present_step (o : op) (s : clan_data) :
  staff_move o = false → leaders_present s → leaders_present (step hash s o).
Proof.
  intros Ho Hs. destruct o; try done.
  - apply create_clan_cases; [done|]. intros _.
    apply leaders_present_insert; [done|]. cbn. apply list_elem_of_here.
  - apply kick_member_cases; [done|]. intros c Hc Hin Hne.
    apply leaders_present_insert; [done|]. cbn.
    apply drop_first_other; [done|]. by apply (Hs _ _ Hc).
  - apply invite_member_cases; [done|]. intros c Hc _.
    apply leaders_present_insert; [done|]. cbn.
    apply elem_of_app. left. by apply (Hs _ _ Hc).
  - apply disband_clan_cases; [done|]. intros c Hc n0 c0. cbn.
    rewrite lookup_delete. case_decide; [done | apply Hs].
  - apply promote_member_cases; [done|..]; intros c Hc; intros;
      (apply leaders_present_insert; [done|]); cbn; by apply (Hs _ _ Hc).
  - apply demote_member_cases; [done|..]; intros c Hc; intros;
      (apply leaders_present_insert; [done|]); cbn; by apply (Hs _ _ Hc).
  - apply delete_clan_cases; [done|]. intros c Hc n0 c0. cbn.
    rewrite lookup_delete. case_decide; [done | apply Hs].
Qed.

(** X10: the operations open to clan members never take a leader off the
    members of its clan.  Starting from the empty registry, after any sequence
    of calls other than [force_kick] and [force_join], whatever their
    arguments and whether they returned or raised, the leader of every clan is
    on its members list. *)
Theorem leaders_stay_members (ops : list op) :
  forallb (λ o, negb (staff_move o)) ops = true →
  leaders_present (run hash ops empty_data).
Proof.
  assert (∀ s, forallb (λ o, negb (staff_move o)) ops = true →
               leaders_present s → leaders_present (run hash ops s)) as Hrun.
  { induction ops as [|o ops' IH]; intros s Hok Hs; [done|].
    cbn in Hok. apply andb_true_iff in Hok as [Ho Hops]. cbn.
    apply IH; [done|]. apply leaders_present_step; [|done].
    by apply negb_true_iff. }
  intros Hok. apply Hrun; [done|]. intros n c. cbn. by rewrite lookup_empty.
Qed.

End Preserved.

(** ** Calls that raise, again *)

Section Atomic.
Variable hash : string → Z.

Lemma bind_bind {A B C} (m : M A) (f : A → M B) (k : B → M C) (s : clan_data) :
  bind (bind m f) k s = bind m (λ a, bind (f a) k) s.
Proof. unfold bind. by destruct (m s). Qed.

Ltac split_tree :=
  repeat first
    [ rewrite bind_bind
    | progress py_simp
    | rewrite mods_discard_eq
    | rewrite coleaders_discard_eq
    | progress unfold ret, members_append, mods_append, coleaders_append
    | case_bool_decide
    | match goal with
      | |- context [match ?x with _ => _ end] => destruct x eqn:?
      end ].

Ltac leaf :=
  try discriminate;
  try (intros [= <- <-]; left; reflexivity);
  try match goal with
      | Hr : role_of _ _ = _, Hn : players _ !! _ = None |- _ =>
          unfold role_of in Hr; rewrite Hn in Hr; discriminate Hr
      | Hn : <[_:=_]> _ !! _ = None, Hs : is_Some _ |- _ =>
          apply lookup_insert_None in Hn as [Hn _]; rewrite Hn in Hs;
          by destruct Hs
      end.

(** X11: a call that raises has not touched the registry, with one
    exception: [promote_member] on a target without a player record, which
    raises [KeyError] after it has appended the target to the clan's lists. *)
Theorem raising_call_leaves_registry (o : op) (s s' : clan_data) (e : exn) :
  exec hash o s = Exc e s' →
  s' = s ∨
  ∃ promoter_id target_name clan_name to_role,
    o = PromoteMember promoter_id target_name clan_name to_role ∧
    e = KeyError ∧
    players s !! str (find_player_id_by_name hash target_name) = None.
Proof.
  destruct o; unfold exec.
  - unfold create_clan. split_tree; leaf.
  - unfold kick_member. split_tree; leaf.
  - unfold invite_member. split_tree; leaf.
  - unfold disband_clan. split_tree; leaf.
  - unfold promote_member. split_tree; leaf.
    all: intros [= <- <-]; right; eauto 10.
  - unfold demote_member. split_tree; leaf.
  - unfold force_kick. split_tree; leaf.
  - unfold force_join. split_tree; leaf.
  - unfold delete_clan. split_tree; leaf.
Qed.

End Atomic.

Lemma raising_call_leaves_registry_witness :
  exec length_hash (DisbandClan 1 "B") clan_A = Exc KeyError clan_A
  ∧ (clan_A = clan_A ∨
     ∃ promoter_id target_name clan_name to_role,
       DisbandClan 1 "B" = PromoteMember promoter_id target_name clan_name to_role ∧
       KeyError = KeyError ∧
       players clan_A !! str (find_player_id_by_name length_hash target_name) = None).
Proof.
  split; [vm_compute; reflexivity|].
  apply (raising_call_leaves_registry length_hash (DisbandClan 1 "B") clan_A clan_A
           KeyError).
  vm_compute; reflexivity.
Defined.

(** ** Round trips *)

Lemma list_remove_snoc (x : Z) (l : list Z) :
  x ∉ l → list_remove x (l ++ [x]) = Some l.
Proof.
  induction l as [|y l IH]; cbn; intros Hx.
  - by rewrite bool_decide_eq_true_2.
  - apply not_elem_of_cons in Hx as [Hxy Hx].
    rewrite bool_decide_eq_false_2 by congruence. by rewrite IH.
Qed.

Lemma drop_first_snoc (x : Z) (l : list Z) : x ∉ l → drop_first x (l ++ [x]) = l.
Proof. intros Hx. unfold drop_first. by rewrite list_remove_snoc. Qed.

Lemma drop_first_absent (x : Z) (l : list Z) : x ∉ l → drop_first x l = l.
Proof. intros Hx%list_remove_None. unfold drop_first. by rewrite Hx. Qed.

Lemma permitted_frame (s s' : clan_data) (c c' : Clan) (player_id : Z)
    (action : string) :
  leader c' = leader c → role_of s' player_id = role_of s player_id →
  permitted s' c' player_id action = permitted s c player_id action.
Proof. intros Hl Hr. unfold permitted. by rewrite Hl, Hr. Qed.

Lemma permitted_invite_kick (s : clan_data) (c : Clan) (player_id : Z) :
  permitted s c player_id "invite" = true → permitted s c player_id "kick" = true.
Proof.
  unfold permitted. destruct (bool_decide (leader c = player_id)); [done|].
  cbn. intros Hr%bool_decide_eq_true. apply bool_decide_eq_true.
  rewrite !elem_of_cons in Hr |- *.
  destruct Hr as [?|[?|?]]; [by left | by right; left | by right; right; right].
Qed.

Lemma contains_None {A} : bool_decide (is_Some (@None A)) = false.
Proof. apply bool_decide_eq_false_2. by intros [? ?]. Qed.

Lemma contains_Some {A} (x : A) : bool_decide (is_Some (Some x)) = true.
Proof. apply bool_decide_eq_true_2. eauto. Qed.

Ltac py_run :=
  repeat first
    [ progress py_simp | rewrite contains_None | rewrite contains_Some ].

Section RoundTrips.
Variable hash : string → Z.

(** X12: inviting a player and kicking it again restores the registry.  In a
    consistent clan, for a found target with no record that is on none of the
    clan's lists, a caller allowed to invite succeeds at inviting and then at
    kicking the target, and the registry after the kick is the one before the
    invitation. *)
Theorem invite_then_kick_restores (caller_id : Z) (target_name clan_name : string)
    (s : clan_data) (c : Clan) :
  let t := find_player_id_by_name hash target_name in
  clans s !! clan_name = Some c → clan_consistent c →
  t ≠ 0 → t ≠ caller_id → t ∉ members c → players s !! str t = None →
  has_permission caller_id clan_name "invite" s = Val true s →
  ∃ s1,
    invite_member hash caller_id target_name clan_name s
    = Val (true, "Successfully invited " +:+ target_name +:+ " to the clan") s1 ∧
    kick_member hash caller_id target_name clan_name s1
    = Val (true, "Successfully kicked " +:+ target_name +:+ " from the clan") s.
Proof.
  intros t Hc (Hl & _ & _ & _ & Hm & Hco) H0 Hself Hout Hnone Hperm.
  rewrite (has_permission_existing _ _ _ _ _ Hc) in Hperm.
  injection Hperm as Hperm.
  assert (leader c ≠ t) as Hlead by (by intros <-).
  exists (after_join t clan_name c s). split.
  - unfold invite_member. fold t. rewrite (bool_decide_eq_false_2 _ H0).
    py_simp. rewrite Hperm. py_run.
    unfold members_append, list_append. py_simp. reflexivity.
  - unfold kick_member. fold t.
    rewrite (bool_decide_eq_false_2 _ H0), (bool_decide_eq_false_2 _ Hself).
    unfold after_join. py_simp. unfold contains.
    rewrite bool_decide_eq_true_2
      by (apply elem_of_app; right; apply list_elem_of_here).
    py_simp.
    rewrite (permitted_frame s _ c).
    2: done.
    2: { unfold role_of. cbn [players]. rewrite lookup_insert_ne; [done|].
         by intros ?%str_inj. }
    rewrite (permitted_invite_kick _ _ _ Hperm). py_simp.
    rewrite (bool_decide_eq_false_2 _ Hlead). py_simp.
    rewrite members_remove_eq
      by (cbn; apply elem_of_app; right; apply list_elem_of_here).
    py_simp. rewrite mods_discard_eq. py_simp.
    rewrite coleaders_discard_eq. py_run.
    unfold with_member. cbn [leader members mods coleaders].
    rewrite (drop_first_snoc _ _ Hout).
    rewrite !drop_first_absent by (intros ?; apply Hout; auto).
    rewrite delete_insert_eq, (delete_id _ _ Hnone).
    replace (mkClan (leader c) (members c) (mods c) (coleaders c)) with c
      by (by destruct c).
    rewrite (insert_id _ _ _ Hc). by destruct s.
Qed.

(** X13: promoting a Member to Mod and demoting it again restores the
    registry: for a target recorded as Member that is not yet in the clan's
    mods, a caller allowed to promote succeeds at both calls and the registry
    after the demotion is the one before the promotion. *)
Theorem promote_then_demote_restores (caller_id : Z) (target_name clan_name : string)
    (s : clan_data) (c : Clan) (p : Player) :
  let t := find_player_id_by_name hash target_name in
  clans s !! clan_name = Some c → t ≠ 0 →
  players s !! str t = Some p → role p = "Member" → t ∉ mods c →
  has_permission caller_id clan_name "promote_demote" s = Val true s →
  ∃ s1,
    promote_member hash caller_id target_name clan_name "Mod" s
    = Val (true, "Successfully promoted " +:+ target_name +:+ " to Mod") s1 ∧
    demote_member hash caller_id target_name clan_name s1
    = Val (true, "Successfully demoted " +:+ target_name) s.
Proof.
  intros t Hc H0 Hp Hrole Hout Hperm.
  rewrite (has_permission_existing _ _ _ _ _ Hc) in Hperm.
  injection Hperm as Hperm.
  assert (role_of s t = "Member") as Hmember.
  { unfold role_of. by rewrite Hp. }
  eexists. split.
  - unfold promote_member. fold t. rewrite (bool_decide_eq_false_2 _ H0).
    py_simp. rewrite Hperm. py_simp. rewrite Hmember.
    rewrite !bool_decide_eq_true_2 by done. py_simp.
    unfold mods_append, list_append. py_simp. reflexivity.
  - unfold demote_member. fold t. rewrite (bool_decide_eq_false_2 _ H0).
    py_simp.
    assert (permitted
              (mkData
                 (<[clan_name := mkClan (leader c) (members c) (mods c ++ [t])
                                   (coleaders c)]> (clans s))
                 (<[str t := mkPlayer (clan p) "Mod"]> (players s)))
              (mkClan (leader c) (members c) (mods c ++ [t]) (coleaders c))
              caller_id "promote_demote" = true) as Hperm'.
    { revert Hperm. unfold permitted. cbn [leader].
      destruct (bool_decide (leader c = caller_id)); [done|]. cbn.
      intros Hr%bool_decide_eq_true. apply bool_decide_eq_true.
      destruct (decide (caller_id = t)) as [->|Hne].
      - rewrite Hmember in Hr. rewrite !elem_of_cons in Hr.
        destruct Hr as [?|[?|?%elem_of_nil]]; done.
      - unfold role_of in *. cbn [players]. rewrite lookup_insert_ne; [done|].
        by intros ?%str_inj. }
    rewrite Hperm'. py_simp.
    assert (role_of
              (mkData
                 (<[clan_name := mkClan (leader c) (members c) (mods c ++ [t])
                                   (coleaders c)]> (clans s))
                 (<[str t := mkPlayer (clan p) "Mod"]> (players s))) t = "Mod")
      as ->.
    { unfold role_of. cbn [players]. by rewrite lookup_insert_eq. }
    rewrite bool_decide_eq_false_2 by done.
    rewrite bool_decide_eq_true_2 by done. py_simp.
    unfold mods_remove. cbn [mods]. rewrite (list_remove_snoc _ _ Hout).
    cbn [fmap option_fmap option_map]. py_simp.
    replace (mkClan (leader c) (members c) (mods c) (coleaders c)) with c
      by (by destruct c).
    cbn [clan].
    replace (mkPlayer (clan p) "Member") with p
      by (destruct p; cbn in *; by subst).
    rewrite (insert_id _ _ _ Hc), (insert_id _ _ _ Hp). by destruct s.
Qed.

(** X14: creating a clan and disbanding it restores the registry: for a free
    name and a caller without a record, both calls succeed and the registry
    after [disband_clan] is the one before [create_clan]. *)
Theorem create_then_disband_restores (leader_id : Z) (clan_name : string)
    (s : clan_data) :
  clans s !! clan_name = None → players s !! str leader_id = None →
  ∃ s1,
    create_clan leader_id clan_name s
    = Val (true, "Clan '" +:+ clan_name +:+ "' created successfully!") s1 ∧
    disband_clan leader_id clan_name s1
    = Val (true, "Clan '" +:+ clan_name +:+ "' has been disbanded") s.
Proof.
  intros Hn Hl. exists (after_create leader_id clan_name s). split.
  - unfold create_clan. py_simp.
    try rewrite bool_decide_eq_false_2 by (by intros [? ?]).
    py_simp. reflexivity.
  - unfold disband_clan, after_create. py_simp.
    rewrite bool_decide_eq_true_2 by done. py_simp.
    unfold forget. cbn [foldl].
    rewrite !delete_insert_eq, (delete_id _ _ Hn), (delete_id _ _ Hl).
    by destruct s.
Qed.

End RoundTrips.

Lemma invite_then_kick_restores_witness :
  ∃ s1,
    invite_member length_hash 1 "bo" "A" clan_A
    = Val (true, "Successfully invited bo to the clan") s1 ∧
    kick_member length_hash 1 "bo" "A" s1
    = Val (true, "Successfully kicked bo from the clan") clan_A.
Proof.
  apply (invite_then_kick_restores length_hash 1 "bo" "A" clan_A (mkClan 1 [1] [] [])).
  - vm_compute. reflexivity.
  - unfold clan_consistent. cbn.
    split_and!; try (intros p Hp; by apply elem_of_nil in Hp);
      try apply not_elem_of_nil.
    apply list_elem_of_here.
  - vm_compute. discriminate.
  - vm_compute. discriminate.
  - cbn. intros Hin. apply list_elem_of_singleton in Hin. revert Hin.
    vm_compute. discriminate.
  - vm_compute. reflexivity.
  - vm_compute. reflexivity.
Defined.

Lemma promote_then_demote_restores_witness :
  ∃ s1,
    promote_member length_hash 1 "bo" "A" "Mod" clan_A_bo
    = Val (true, "Successfully promoted bo to Mod") s1 ∧
    demote_member length_hash 1 "bo" "A" s1
    = Val (true, "Successfully demoted bo") clan_A_bo.
Proof.
  apply (promote_then_demote_restores length_hash 1 "bo" "A" clan_A_bo
           (mkClan 1 [1; 2] [] []) (mkPlayer "A" "Member")).
  - vm_compute. reflexivity.
  - vm_compute. discriminate.
  - vm_compute. reflexivity.
  - reflexivity.
  - cbn. apply not_elem_of_nil.
  - vm_compute. reflexivity.
Defined.

Lemma create_then_disband_restores_witness :
  ∃ s1,
    create_clan 3 "B" clan_A_bo = Val (true, "Clan 'B' created successfully!") s1 ∧
    disband_clan 3 "B" s1 = Val (true, "Clan 'B' has been disbanded") clan_A_bo.
Proof.
  apply (create_then_disband_restores 3 "B" clan_A_bo).
  - vm_compute. reflexivity.
  - vm_compute. reflexivity.
Defined.

Lemma disband_clan_spec_witness :
  clans clan_A_bo !! "A" = Some (mkClan 1 [1; 2] [] [])
  ∧ disband_clan 2 "A" clan_A_bo
    = Val (false, "Only the clan leader can disband the clan") clan_A_bo.
Proof.
  split; [vm_compute; reflexivity|].
  destruct (disband_clan_spec 2 "A" clan_A_bo (mkClan 1 [1; 2] [] []))
    as [Hother _]; [vm_compute; reflexivity|].
  apply Hother. vm_compute. discriminate.
Defined.

Lemma force_join_spec_witness :
  clans two_clans !! "B" = Some (mkClan 5 [5] [] []) ∧
  find_player_id_by_name length_hash "bo" ≠ 0 ∧
  players two_clans !! "2" = Some (mkPlayer "A" "Mod") ∧
  clans two_clans !! "A" = Some (mkClan 1 [1; 2; 3; 4] [3; 2; 4] []) ∧
  ∃ s',
    force_join length_hash "bo" "B" two_clans = Val (true, "Force joined bo to B") s' ∧
    clans s' !! "A" = Some (mkClan 1 [1; 3; 4] [3; 4] []) ∧
    clans s' !! "B" = Some (mkClan 5 [5; 2] [] []) ∧
    players s' !! "2" = Some (mkPlayer "B" "Member").
Proof.
  split; [vm_compute; reflexivity|]. split; [vm_compute; discriminate|].
  split; [vm_compute; reflexivity|]. split; [vm_compute; reflexivity|].
  destruct (force_join_spec length_hash "bo" "B" two_clans (mkClan 5 [5] [] []))
    as (_ & Hrec & _); [vm_compute; reflexivity | vm_compute; discriminate |].
  destruct (Hrec (mkPlayer "A" "Mod")) as [_ Hclan]; [vm_compute; reflexivity|].
  destruct (Hclan (mkClan 1 [1; 2; 3; 4] [3; 2; 4] [])) as [_ Hin];
    [vm_compute; reflexivity|].
  destruct Hin as (ms & mo & co & Hms & Hmo & Hco & _ & _ & _ & Hcall & _).
  { cbn. apply list_elem_of_further, list_elem_of_here. }
  apply first_removed_eq in Hms. apply discarded_eq in Hmo, Hco.
  vm_compute in Hms, Hmo, Hco. subst ms mo co.
  eexists. split; [apply Hcall; discriminate|].
  split; [|split]; vm_compute; reflexivity.
Defined.

Lemma leader_never_changes_witness :
  clans clan_A_bo !! "A" = Some (mkClan 1 [1; 2] [] [])
  ∧ clans (step length_hash clan_A_bo (ForceKick "a")) !! "A"
    = Some (mkClan 1 [2] [] [])
  ∧ leader (mkClan 1 [2] [] []) = leader (mkClan 1 [1; 2] [] []).
Proof.
  split; [vm_compute; reflexivity|]. split; [vm_compute; reflexivity|].
  apply (leader_never_changes length_hash (ForceKick "a") clan_A_bo "A");
    vm_compute; reflexivity.
Defined.

Lemma clan_names_kept_witness :
  is_Some (clans (step length_hash clan_A_bo (KickMember 1 "bo" "A")) !! "A")
  ↔ is_Some (clans clan_A_bo !! "A").
Proof.
  apply (clan_names_kept length_hash (KickMember 1 "bo" "A") clan_A_bo "A").
  reflexivity.
Defined.

Lemma regrading_keeps_membership_witness :
  (∀ n, members <$> clans (step length_hash clan_A_bo
                             (PromoteMember 1 "bo" "A" "Co-Leader")) !! n
        = members <$> clans clan_A_bo !! n)
  ∧ (∀ key, clan <$> players (step length_hash clan_A_bo
                                (PromoteMember 1 "bo" "A" "Co-Leader")) !! key
            = clan <$> players clan_A_bo !! key).
Proof.
  apply (regrading_keeps_membership length_hash
           (PromoteMember 1 "bo" "A" "Co-Leader") clan_A_bo).
  reflexivity.
Defined.

Lemma leaders_stay_members_witness :
  leaders_present
    (run length_hash
       [CreateClan 1 "A"; CreateClan 1 "B"; InviteMember 1 "bo" "A";
        PromoteMember 1 "bo" "A" "Co-Leader"; KickMember 2 "a" "A";
        DisbandClan 1 "B"] empty_data).
Proof.
  apply (leaders_stay_members length_hash). reflexivity.
Defined.

(** ** Records, rosters and ranks along a sequence of calls *)

Section Along.
Variable hash : string → Z.

(** X15: when clans are only created by callers without a record, every
    player on a members list has a record naming that clan, so that
    [get_player_clan] answers with it, and no members list names a player
    twice, after any sequence of calls. *)
Theorem members_are_recorded (ops : list op) :
  guarded_run hash creator_is_clanless ops empty_data = true →
  let s := run hash ops empty_data in
  ∀ n c, clans s !! n = Some c →
    NoDup (members c) ∧
    ∀ p, p ∈ members c → get_player_clan p s = Val (Some n) s.
Proof.
  intros Hok s n c Hc.
  destruct (roster_sound_run hash ops empty_data Hok roster_sound_empty)
    as [Hrec Hnd].
  split; [by eapply Hnd|]. intros p Hp. unfold get_player_clan.
  fold s in Hrec. by rewrite (Hrec n c p Hc Hp).
Qed.

(** X16: after a sequence of calls within the design, the stored records
    and the clan lists tell the same story: a player has a record only if the
    clan the record names exists and lists the player as a member, and the
    stored role is Leader, Co-Leader or Mod exactly when the player is the
    clan's leader, in its coleaders or in its mods; and the mods and
    coleaders lists name nobody twice. *)
Theorem records_match_rosters (ops : list op) :
  guarded_run hash (within_design hash) ops empty_data = true →
  let s := run hash ops empty_data in
  (∀ p r, players s !! str p = Some r →
     ∃ c, clans s !! clan r = Some c ∧ p ∈ members c ∧ role_matches c p (role r)) ∧
  (∀ n c, clans s !! n = Some c → NoDup (mods c) ∧ NoDup (coleaders c)).
Proof.
  intros Hok s.
  destruct (sound_run hash ops empty_data Hok roster_sound_empty ranks_sound_empty)
    as [Hs (Hcl & Hroles & Hrecs)].
  split.
  - intros p r Hr. destruct (Hrecs p r Hr) as (c & Hc & Hin).
    exists c. split_and!; [done..|]. by eapply Hroles.
  - intros n c Hc. by destruct (Hcl n c Hc) as (_ & ? & ?).
Qed.

(** X17: after a sequence of calls within the design, the three rank tests
    of the manager agree with the stored role: for a member [p] of clan [n],
    [is_leader], [is_coleader] and [is_mod] answer true exactly when
    [get_player_role] answers Leader, Co-Leader and Mod. *)
Theorem rank_tests_agree (ops : list op) (n : string) (c : Clan) (p : Z) :
  guarded_run hash (within_design hash) ops empty_data = true →
  let s := run hash ops empty_data in
  clans s !! n = Some c → p ∈ members c →
  is_leader p n s = Val (bool_decide (role_of s p = "Leader")) s ∧
  is_coleader p n s = Val (bool_decide (role_of s p = "Co-Leader")) s ∧
  is_mod p n s = Val (bool_decide (role_of s p = "Mod")) s.
Proof.
  intros Hok s Hc Hin.
  destruct (sound_run hash ops empty_data Hok roster_sound_empty ranks_sound_empty)
    as [Hs Hr].
  destruct (member_role _ _ _ _ Hs Hr Hc Hin) as (HL & HC & HM).
  unfold is_leader, is_coleader, is_mod, contains. py_simp. unfold ret.
  split_and!; f_equal; apply bool_decide_ext.
  - split; [intros <-; by apply HL | intros Hrole%HL; congruence].
  - split; apply HC.
  - split; apply HM.
Qed.

End Along.

Lemma members_are_recorded_witness :
  guarded_run length_hash creator_is_clanless
    [CreateClan 1 "A"; InviteMember 1 "bo" "A"; PromoteMember 1 "cat" "A" "Mod"]
    empty_data = true
  ∧ ∀ n c,
      clans (run length_hash
               [CreateClan 1 "A"; InviteMember 1 "bo" "A";
                PromoteMember 1 "cat" "A" "Mod"] empty_data) !! n = Some c →
      NoDup (members c) ∧
      ∀ p, p ∈ members c →
        get_player_clan p
          (run length_hash
             [CreateClan 1 "A"; InviteMember 1 "bo" "A";
              PromoteMember 1 "cat" "A" "Mod"] empty_data)
        = Val (Some n)
            (run length_hash
               [CreateClan 1 "A"; InviteMember 1 "bo" "A";
                PromoteMember 1 "cat" "A" "Mod"] empty_data).
Proof.
  split; [vm_compute; reflexivity|].
  apply (members_are_recorded length_hash). vm_compute; reflexivity.
Defined.

Lemma records_match_rosters_witness :
  guarded_run length_hash (within_design length_hash)
    [CreateClan 1 "A"; InviteMember 1 "bo" "A"; PromoteMember 1 "bo" "A" "Mod"]
    empty_data = true
  ∧ ∀ n c, clans clan_A_mod !! n = Some c → NoDup (mods c) ∧ NoDup (coleaders c).
Proof.
  split; [vm_compute; reflexivity|].
  apply (records_match_rosters length_hash
           [CreateClan 1 "A"; InviteMember 1 "bo" "A"; PromoteMember 1 "bo" "A" "Mod"]).
  vm_compute; reflexivity.
Defined.

Lemma rank_tests_agree_witness :
  is_leader 2 "A" clan_A_mod
  = Val (bool_decide (role_of clan_A_mod 2 = "Leader")) clan_A_mod
  ∧ is_coleader 2 "A" clan_A_mod
    = Val (bool_decide (role_of clan_A_mod 2 = "Co-Leader")) clan_A_mod
  ∧ is_mod 2 "A" clan_A_mod
    = Val (bool_decide (role_of clan_A_mod 2 = "Mod")) clan_A_mod.
Proof.
  apply (rank_tests_agree length_hash
           [CreateClan 1 "A"; InviteMember 1 "bo" "A"; PromoteMember 1 "bo" "A" "Mod"]
           "A" (mkClan 1 [1; 2] [2] []) 2).
  - vm_compute. reflexivity.
  - vm_compute. reflexivity.
  - cbn. apply list_elem_of_further, list_elem_of_here.
Defined.

(** ** Records always name their clan *)

Lemma records_placed_empty : records_placed empty_data.
Proof. intros p r. cbn. by rewrite lookup_empty. Qed.

Lemma records_placed_create (l : Z) (n : string) (s : clan_data) :
  records_placed s → clans s !! n = None → records_placed (after_create l n s).
Proof.
  intros Hs Hn p r. cbn. rewrite lookup_insert. case_decide as Hp.
  - apply str_inj in Hp as <-. intros [= <-]. cbn. rewrite lookup_insert_eq.
    eexists. split; [done|]. apply list_elem_of_here.
  - intros Hr. destruct (Hs _ _ Hr) as (c & Hc & Hin). exists c.
    rewrite lookup_insert_ne; [done|]. congruence.
Qed.

Lemma records_placed_leave (t : Z) (n : string) (c : Clan) (s : clan_data) :
  records_placed s → clans s !! n = Some c → records_placed (after_leave t n c s).
Proof.
  intros Hs Hc p r. cbn. rewrite lookup_delete. case_decide as Hp; [done|].
  intros Hr. destruct (Hs _ _ Hr) as (c0 & Hc0 & Hin).
  rewrite lookup_insert. case_decide as Hn.
  - exists (without t c). split; [done|]. cbn.
    apply drop_first_other; [congruence|]. rewrite Hn in Hc. congruence.
  - by exists c0.
Qed.

Lemma records_placed_join (t : Z) (n : string) (c : Clan) (s : clan_data) :
  records_placed s → clans s !! n = Some c → records_placed (after_join t n c s).
Proof.
  intros Hs Hc p r. cbn. rewrite lookup_insert. case_decide as Hp.
  - apply str_inj in Hp as <-. intros [= <-]. cbn. rewrite lookup_insert_eq.
    eexists. split; [done|]. cbn. apply elem_of_app. right. apply list_elem_of_here.
  - intros Hr. destruct (Hs _ _ Hr) as (c0 & Hc0 & Hin).
    rewrite lookup_insert. case_decide as Hn.
    + exists (with_member t c). split; [done|]. cbn.
      apply elem_of_app. left. rewrite Hn in Hc. congruence.
    + by exists c0.
Qed.

Lemma records_placed_dissolve (n : string) (c : Clan) (s : clan_data) :
  records_placed s → clans s !! n = Some c → records_placed (after_dissolve n c s).
Proof.
  intros Hs Hc p r Hr. cbn in *.
  assert (p ∉ members c) as Hout.
  { intros Hin. by rewrite (forget_gone _ _ _ Hin) in Hr. }
  apply forget_Some in Hr. destruct (Hs _ _ Hr) as (c0 & Hc0 & Hin).
  exists c0. split; [|done]. rewrite lookup_delete_ne; [done|].
  intros ->. rewrite Hc in Hc0. by injection Hc0 as ->.
Qed.

Lemma records_placed_regrade (t : Z) (n r : string) (c c' : Clan) (s : clan_data) :
  records_placed s → clans s !! n = Some c → members c' = members c →
  records_placed (after_regrade t n c' r s).
Proof.
  intros Hs Hc Hm p r0 Hr0. cbn in *.
  assert (∃ r1, players s !! str p = Some r1 ∧ clan r1 = clan r0) as (r1 & Hr1 & Heq).
  { rewrite lookup_alter in Hr0. case_decide as Hp.
    - destruct (players s !! str t) as [r1|] eqn:Ht; [|done].
      injection Hr0 as <-. exists r1. by rewrite <- Hp.
    - by eexists. }
  destruct (Hs _ _ Hr1) as (c0 & Hc0 & Hin). rewrite <- Heq.
  rewrite lookup_insert. case_decide as Hn.
  - exists c'. split; [done|]. rewrite Hm. rewrite Hn in Hc. congruence.
  - by exists c0.
Qed.

Section Placed.
Variable hash : string → Z.

Lemma records_placed_step (s : clan_data) (o : op) :
  records_placed s → records_placed (step hash s o).
Proof.
  intros Hs. destruct o.
  - apply create_clan_cases; [done|]. by apply records_placed_create.
  - apply kick_member_cases; [done|]. intros c Hc _ _.
    by apply records_placed_leave.
  - apply invite_member_cases; [done|]. intros c Hc _.
    by apply records_placed_join.
  - apply disband_clan_cases; [done|]. intros c Hc.
    by apply records_placed_dissolve.
  - apply promote_member_cases; [done|..]; intros c Hc; intros;
      by apply records_placed_regrade with c.
  - apply demote_member_cases; [done|..]; intros c Hc; intros;
      by apply records_placed_regrade with c.
  - apply force_kick_cases; [done|]. intros r c _ Hc _.
    by apply records_placed_leave.
  - apply force_join_cases; [done|..].
    + intros c Hc _. by apply records_placed_join.
    + intros r c0 c _ Hc0 _ Hc.
      apply records_placed_join; [|done]. by apply records_placed_leave.
  - apply delete_clan_cases; [done|]. intros c Hc.
    by apply records_placed_dissolve.
Qed.

Lemma records_placed_run (ops : list op) (s : clan_data) :
  records_placed s → records_placed (run hash ops s).
Proof.
  revert s. induction ops as [|o ops IH]; intros s Hs; [done|].
  cbn. by apply IH, records_placed_step.
Qed.

(** X18: after any sequence of calls at all, starting from the empty
    registry, every player record names a clan that is in the registry and
    that has the player on its members list: no operation, failing, raising
    or misused, leaves a record pointing nowhere. *)
Theorem records_name_their_clan (ops : list op) (p : Z) (r : Player) :
  players (run hash ops empty_data) !! str p = Some r →
  ∃ c, clans (run hash ops empty_data) !! clan r = Some c ∧ p ∈ members c.
Proof. apply records_placed_run, records_placed_empty. Qed.

End Placed.

Lemma records_name_their_clan_witness :
  players clan_A_bo !! str 2 = Some (mkPlayer "A" "Member")
  ∧ ∃ c, clans clan_A_bo !! "A" = Some c ∧ 2 ∈ members c.
Proof.
  split; [vm_compute; reflexivity|].
  apply (records_name_their_clan length_hash
           [CreateClan 1 "A"; InviteMember 1 "bo" "A"] 2 (mkPlayer "A" "Member")).
  vm_compute. reflexivity.
Defined.

(** ** Why a call raises *)

Lemma members_remove_None (t : Z) (c : Clan) :
  members_remove t c = None → t ∉ members c.
Proof.
  unfold members_remove. intros Hn%fmap_None. by apply list_remove_None.
Qed.

Section Causes.
Variable hash : string → Z.

Ltac explore :=
  unfold contains;
  repeat first
    [ rewrite bind_bind
    | progress py_simp
    | rewrite mods_discard_eq
    | rewrite coleaders_discard_eq
    | progress unfold ret, members_append, mods_append, coleaders_append
    | case_bool_decide
    | match goal with
      | |- context [match ?x with _ => _ end] => destruct x eqn:?
      end ].

Ltac impossible :=
  try discriminate;
  try match goal with
      | H : is_Some None |- _ => by destruct H
      | H : ¬ is_Some (Some _) |- _ => exfalso; apply H; eauto
      | Hn : members_remove ?t ?c = None, Hin : ?t ∈ members ?c |- _ =>
          by apply members_remove_None in Hn
      | Hn : <[_:=_]> _ !! _ = None, Hs : is_Some _ |- _ =>
          apply lookup_insert_None in Hn as [Hn _]; rewrite Hn in Hs;
          by destruct Hs
      end.

Lemma raise_causes (o : op) (s s' : clan_data) (e : exn) :
  exec hash o s = Exc e s' → may_raise hash s o.
Proof.
  destruct o; unfold exec, may_raise; try done.
  - unfold create_clan. explore; impossible.
  - unfold kick_member. explore; impossible. all: done.
  - unfold invite_member. explore; impossible. all: done.
  - unfold disband_clan. explore; impossible. all: done.
  - unfold force_kick. explore; impossible.
    all: intros _; eexists; split; [done|]; intros c' Hc'; simplify_eq.
    by apply members_remove_None.
  - unfold force_join. explore; impossible.
    all: intros _; eexists; split; [done|]; intros c' Hc'; simplify_eq.
    by apply members_remove_None.
  - unfold delete_clan. explore; impossible.
Qed.

(** X19: in a registry reached from the empty one by any sequence of calls,
    [create_clan], [delete_clan], [force_kick] and [force_join] never raise,
    and [kick_member], [invite_member] and [disband_clan] raise only when the
    clan name they are given is not in the registry. *)
Theorem raises_only_for_unknown_clan (ops : list op) (o : op) (e : exn)
    (s' : clan_data) :
  exec hash o (run hash ops empty_data) = Exc e s' →
  match o with
  | KickMember _ _ n | InviteMember _ _ n | DisbandClan _ n =>
      clans (run hash ops empty_data) !! n = None
  | PromoteMember _ _ _ _ | DemoteMember _ _ _ => True
  | _ => False
  end.
Proof.
  intros Hraise. pose proof (raise_causes _ _ _ _ Hraise) as Hcause.
  pose proof (records_placed_run hash ops empty_data records_placed_empty) as Hs.
  destruct o; try done.
  - destruct Hcause as (r & Hr & Hout).
    destruct (Hs _ _ Hr) as (c & Hc & Hin). by apply (Hout c).
  - destruct Hcause as (r & Hr & Hout).
    destruct (Hs _ _ Hr) as (c & Hc & Hin). by apply (Hout c).
Qed.

End Causes.

Lemma raises_only_for_unknown_clan_witness :
  exec length_hash (KickMember 1 "bo" "B")
    (run length_hash [CreateClan 1 "A"] empty_data)
  = Exc KeyError (run length_hash [CreateClan 1 "A"] empty_data)
  ∧ clans (run length_hash [CreateClan 1 "A"] empty_data) !! "B" = None.
Proof.
  split; [vm_compute; reflexivity|].
  apply (raises_only_for_unknown_clan length_hash [CreateClan 1 "A"]
           (KickMember 1 "bo" "B") KeyError
           (run length_hash [CreateClan 1 "A"] empty_data)).
  vm_compute. reflexivity.
Defined.

(** ** One clan at a time *)

Section Frame.
Variable hash : string → Z.

Lemma step_frame (o : op) (s : clan_data) (n n' : string) :
  clan_of_op o = Some n → n' ≠ n →
  clans (step hash s o) !! n' = clans s !! n'.
Proof.
  intros Ho Hn.
  assert (∀ (c' : Clan) ps,
            clans (mkData (<[n := c']> (clans s)) ps) !! n' = clans s !! n')
    as Hins by (intros; cbn; by rewrite lookup_insert_ne).
  assert (∀ ps, clans (mkData (delete n (clans s)) ps) !! n' = clans s !! n')
    as Hdel by (intros; cbn; by rewrite lookup_delete_ne).
  destruct o; try done; injection Ho as ->.
  - apply kick_member_cases; [done|]. intros; apply Hins.
  - apply invite_member_cases; [done|]. intros; apply Hins.
  - apply disband_clan_cases; [done|]. intros; apply Hdel.
  - apply promote_member_cases; [done|..]; intros; apply Hins.
  - apply demote_member_cases; [done|..]; intros; apply Hins.
Qed.

(** X20: a member operation touches the entry of no clan but the one it is
    given: after [kick_member], [invite_member], [disband_clan],
    [promote_member] or [demote_member] on clan [n], raising or not, every
    other clan name maps to what it mapped to before. *)
Theorem other_clans_untouched (o : op) (s : clan_data) (n n' : string) :
  clan_of_op o = Some n → n' ≠ n →
  clans (step hash s o) !! n' = clans s !! n'.
Proof. apply step_frame. Qed.

End Frame.

Lemma other_clans_untouched_witness :
  clans (step length_hash
           (run length_hash [CreateClan 1 "A"; CreateClan 3 "B"] empty_data)
           (PromoteMember 1 "cat" "A" "Mod")) !! "B"
  = clans (run length_hash [CreateClan 1 "A"; CreateClan 3 "B"] empty_data) !! "B".
Proof.
  apply (other_clans_untouched length_hash (PromoteMember 1 "cat" "A" "Mod") _ "A" "B").
  - reflexivity.
  - discriminate.
Defined.

(** ** The command layer *)

Lemma state_of_answer {A B} (m : M A) (f : A → B) (s : clan_data) :
  state_of (bind m (λ r, ret (f r)) s) = state_of (m s).
Proof. unfold bind, ret. by destruct (m s). Qed.

Section Commands.
Variable hash : string → Z.

(** Every handler makes at most one manager call, and sends the message of
    that call or its own refusal. *)
Lemma handle_eq (c : ClanBot.command) (s : clan_data) :
  ∃ msg, ClanBot.handle hash c s
         = match op_of s c with
           | Some o => bind (exec hash o) (λ r, ret (snd r)) s
           | None => Val msg s
           end.
Proof.
  destruct c; cbn [ClanBot.handle op_of];
    unfold ClanBot.create_clan, ClanBot.kick_member, ClanBot.invite_member,
      ClanBot.disband_clan, ClanBot.promote_member, ClanBot.demote_member,
      ClanBot.force_kick, ClanBot.force_join, ClanBot.delete_clan.
  all: try (unfold bind at 1; unfold get_player_clan at 1;
            destruct (clan <$> players s !! str user_id) as [n|]; cbn [truthy];
            [case_bool_decide; cbn [negb]|]).
  all: try by eexists.
  all: by exists "".
Qed.

Lemma handle_as_op (c : ClanBot.command) (s : clan_data) :
  state_of (ClanBot.handle hash c s)
  = match op_of s c with
    | Some o => step hash s o
    | None => s
    end.
Proof.
  destruct (handle_eq c s) as [msg ->].
  destruct (op_of s c); [apply state_of_answer | done].
Qed.

Lemma no_empty_name_insert (s : clan_data) (n : string) (c c' : Clan)
    (ps : gmap string Player) :
  no_empty_name s → clans s !! n = Some c →
  (∀ key r, ps !! key = Some r → clan r ≠ "") →
  no_empty_name (mkData (<[n := c']> (clans s)) ps).
Proof.
  intros [Hcl Hrec] Hc Hps. split; [|done]. cbn.
  rewrite lookup_insert_ne; [done|]. intros ->. congruence.
Qed.

Lemma no_empty_name_step (s : clan_data) (o : op) :
  (∀ leader_id n, o = CreateClan leader_id n → n ≠ "") →
  no_empty_name s → no_empty_name (step hash s o).
Proof.
  intros Ho Hs. pose proof Hs as [Hcl Hrec].
  assert (∀ n c, clans s !! n = Some c → n ≠ "") as Hne
    by (intros n c Hc ->; congruence).
  assert (∀ key key' r0, delete key (players s) !! key' = Some r0 → clan r0 ≠ "")
    as Hdel.
  { intros key key' r0 Hr0. apply lookup_delete_Some in Hr0 as [_ Hr0].
    by eapply Hrec. }
  assert (∀ key n key' r0, n ≠ "" →
            <[key := mkPlayer n "Member"]> (players s) !! key' = Some r0 →
            clan r0 ≠ "") as Hput.
  { intros key n key' r0 Hn Hr0. apply lookup_insert_Some in Hr0 as [[_ <-]|[_ Hr0]];
      [done | by eapply Hrec]. }
  assert (∀ t r key' r0,
            alter (λ p, mkPlayer (clan p) r) (str t) (players s) !! key' = Some r0 →
            clan r0 ≠ "") as Halter.
  { intros t r key' r0 Hr0.
    assert (clan <$> alter (λ p, mkPlayer (clan p) r) (str t) (players s) !! key'
            = Some (clan r0)) as Hcl0 by (by rewrite Hr0).
    rewrite lookup_regrade_clan in Hcl0.
    destruct (players s !! key') as [r1|] eqn:Hr1; [|done].
    injection Hcl0 as <-. by eapply Hrec. }
  destruct o.
  - apply create_clan_cases; [done|]. intros Hn.
    specialize (Ho _ _ eq_refl). split; cbn.
    + by rewrite lookup_insert_ne.
    + intros key r Hr. apply lookup_insert_Some in Hr as [[_ <-]|[_ Hr]];
        [done | by eapply Hrec].
  - apply kick_member_cases; [done|]. intros c Hc _ _.
    apply no_empty_name_insert with c; [done..|]. apply Hdel.
  - apply invite_member_cases; [done|]. intros c Hc _.
    apply no_empty_name_insert with c; [done..|]. intros key r.
    apply Hput. by eapply Hne.
  - apply disband_clan_cases; [done|]. intros c Hc. split; cbn.
    + rewrite lookup_delete. by case_decide.
    + intros key r Hr%forget_Some. by eapply Hrec.
  - apply promote_member_cases; [done|..]; intros c Hc; intros;
      (apply no_empty_name_insert with c; [done..|]); apply Halter.
  - apply demote_member_cases; [done|..]; intros c Hc; intros;
      (apply no_empty_name_insert with c; [done..|]); apply Halter.
  - apply force_kick_cases; [done|]. intros r c _ Hc _.
    apply no_empty_name_insert with c; [done..|]. apply Hdel.
  - apply force_join_cases; [done|..].
    + intros c Hc _. apply no_empty_name_insert with c; [done..|].
      intros key r. apply Hput. by eapply Hne.
    + intros r c0 c _ Hc0 _ Hc.
      assert (no_empty_name
                (after_leave (find_player_id_by_name hash target_name) (clan r) c0 s))
        as Hmid.
      { apply no_empty_name_insert with c0; [done..|]. apply Hdel. }
      apply no_empty_name_insert with c; [done..|]. intros key r0 Hr0.
      apply lookup_insert_Some in Hr0 as [[_ <-]|[_ Hr0]].
      * cbn. destruct Hmid as [Hmid _]. intros ->. congruence.
      * destruct Hmid as [_ Hmid]. by eapply Hmid.
  - apply delete_clan_cases; [done|]. intros c Hc. split; cbn.
    + rewrite lookup_delete. by case_decide.
    + intros key r Hr%forget_Some. by eapply Hrec.
Qed.

Lemma served_sound (cmds : list ClanBot.command) (s : clan_data) :
  names_nonempty cmds → roster_sound s → no_empty_name s →
  roster_sound (ClanBot.serve hash cmds s) ∧ no_empty_name (ClanBot.serve hash cmds s).
Proof.
  revert s. induction cmds as [|c cmds IH]; intros s Hnames Hs Hne; [done|].
  cbn. apply IH.
  - intros user_id name Hin. apply (Hnames user_id name). by apply list_elem_of_further.
  - rewrite handle_as_op. destruct (op_of s c) as [o|] eqn:Ho; [|done].
    apply roster_sound_step; [|done].
    destruct c; cbn in Ho; try by (destruct (clan <$> _); [case_bool_decide|]; simplify_eq).
    all: try by simplify_eq.
    destruct (players s !! str user_id) as [r|] eqn:Hr; cbn in Ho.
    + destruct Hne as [_ Hrec]. specialize (Hrec _ _ Hr).
      rewrite bool_decide_eq_false_2 in Ho by done. done.
    + injection Ho as <-. cbn. by apply bool_decide_eq_true_2.
  - rewrite handle_as_op. destruct (op_of s c) as [o|] eqn:Ho; [|done].
    apply no_empty_name_step; [|done]. intros leader_id n ->.
    destruct c; cbn in Ho; try by (destruct (clan <$> _); [case_bool_decide|]; simplify_eq).
    all: try by simplify_eq.
    case_match; simplify_eq. apply (Hnames leader_id n). apply list_elem_of_here.
Qed.

(** X21: through the commands of the bot no player is ever in two clans:
    starting from the empty registry, after any sequence of commands in which
    no clan is created with the empty name, no player id is on the members
    list of two clans.  (The create command lets a caller through when
    [get_player_clan] is falsy, which the empty clan name is.) *)
Theorem commands_keep_membership_unique (cmds : list ClanBot.command) :
  names_nonempty cmds →
  unique_membership (ClanBot.serve hash cmds empty_data).
Proof.
  intros Hnames. apply roster_sound_unique.
  apply served_sound; [done | apply roster_sound_empty |].
  split; [done|]. intros key r. cbn. by rewrite lookup_empty.
Qed.

End Commands.

Lemma commands_keep_membership_unique_witness :
  names_nonempty [ClanBot.Create 1 "A"; ClanBot.Create 1 "B"; ClanBot.Invite 1 "bo"]
  ∧ unique_membership
      (ClanBot.serve length_hash
         [ClanBot.Create 1 "A"; ClanBot.Create 1 "B"; ClanBot.Invite 1 "bo"]
         empty_data).
Proof.
  assert (names_nonempty
            [ClanBot.Create 1 "A"; ClanBot.Create 1 "B"; ClanBot.Invite 1 "bo"])
    as Hnames.
  { intros user_id name Hin. rewrite !elem_of_cons in Hin.
    destruct Hin as [Hc|[Hc|[Hc|Hc%elem_of_nil]]]; [| |discriminate Hc|done].
    - injection Hc as _ ->. discriminate.
    - injection Hc as _ ->. discriminate. }
  split; [exact Hnames|].
  apply (commands_keep_membership_unique length_hash _ Hnames).
Defined.

(** With the empty clan name the check of the create command lets a clan
    leader through: player 1 ends up on the members list of two clans. *)
Example empty_name_passes_the_create_check :
  clans (ClanBot.serve length_hash [ClanBot.Create 1 ""; ClanBot.Create 1 "B"]
           empty_data)
  = <["B" := mkClan 1 [1] [] []]> {[ "" := mkClan 1 [1] [] [] ]}.
Proof. vm_compute. reflexivity. Qed.

Section Answers.
Variable hash : string → Z.

Lemma served_placed (cmds : list ClanBot.command) (s : clan_data) :
  records_placed s → records_placed (ClanBot.serve hash cmds s).
Proof.
  revert s. induction cmds as [|c cmds IH]; intros s Hs; [done|].
  cbn. apply IH. rewrite handle_as_op.
  destruct (op_of s c); [by apply records_placed_step | done].
Qed.

Lemma own_clan_call (s : clan_data) (user_id : Z) (call : string → op) (o : op) :
  match clan <$> players s !! str user_id with
  | Some n => if bool_decide (n = "") then None else Some (call n)
  | None => None
  end = Some o →
  ∃ r, players s !! str user_id = Some r ∧ o = call (clan r).
Proof.
  destruct (players s !! str user_id) as [r|]; cbn; [|done].
  case_bool_decide; [done|]. intros [= <-]. by exists r.
Qed.

(** X22: after any sequence of commands, every command other than promote
    and demote is answered: its handler sends a message and does not raise,
    whoever issues it and whatever names it is given. *)
Theorem commands_are_answered (cmds : list ClanBot.command) (c : ClanBot.command) :
  regrading_command c = false →
  ∃ msg s', ClanBot.handle hash c (ClanBot.serve hash cmds empty_data) = Val msg s'.
Proof.
  intros Hc. set (s := ClanBot.serve hash cmds empty_data).
  assert (records_placed s) as Hs by apply served_placed, records_placed_empty.
  destruct (handle_eq hash c s) as [msg ->].
  destruct (op_of s c) as [o|] eqn:Ho; [|by eauto].
  unfold bind. destruct (exec hash o s) as [r s'|e s'] eqn:Hexec; [by eauto|].
  exfalso. apply raise_causes in Hexec.
  destruct c; try done; cbn in Ho.
  - case_match; simplify_eq. done.
  - apply own_clan_call in Ho as (r & Hr & ->). cbn in Hexec.
    destruct (Hs _ _ Hr) as (c0 & Hc0 & _). congruence.
  - apply own_clan_call in Ho as (r & Hr & ->). cbn in Hexec.
    destruct (Hs _ _ Hr) as (c0 & Hc0 & _). congruence.
  - apply own_clan_call in Ho as (r & Hr & ->). cbn in Hexec.
    destruct (Hs _ _ Hr) as (c0 & Hc0 & _). congruence.
  - injection Ho as <-. destruct Hexec as (r & Hr & Hout).
    destruct (Hs _ _ Hr) as (c0 & Hc0 & Hin). by apply (Hout c0).
  - injection Ho as <-. destruct Hexec as (r & Hr & Hout).
    destruct (Hs _ _ Hr) as (c0 & Hc0 & Hin). by apply (Hout c0).
  - injection Ho as <-. done.
Qed.


End Answers.

Lemma commands_are_answered_witness :
  ∃ msg s',
    ClanBot.handle length_hash (ClanBot.ForceKickCmd "a")
      (ClanBot.serve length_hash [ClanBot.Create 1 "A"; ClanBot.Invite 1 "bo"]
         empty_data)
    = Val msg s'.
Proof.
  apply (commands_are_answered length_hash
           [ClanBot.Create 1 "A"; ClanBot.Invite 1 "bo"] (ClanBot.ForceKickCmd "a")).
  reflexivity.
Defined.


Lemma create_clan_spec_witness :
  clans clan_A !! "B" = None
  ∧ create_clan 3 "B" clan_A
    = Val (true, "Clan 'B' created successfully!") (after_create 3 "B" clan_A)
  ∧ get_player_role 3 (after_create 3 "B" clan_A)
    = Val "Leader" (after_create 3 "B" clan_A).
Proof.
  split; [vm_compute; reflexivity|].
  destruct (create_clan_spec 3 "B" clan_A) as [_ Hfree].
  destruct Hfree as (Hcall & _ & Hrole & _); [vm_compute; reflexivity|].
  split; [exact Hcall | exact Hrole].
Defined.

Lemma delete_clan_spec_witness :
  clans clan_A_bo !! "A" = Some (mkClan 1 [1; 2] [] [])
  ∧ delete_clan "A" clan_A_bo = Val (true, "Clan 'A' has been deleted") empty_data.
Proof.
  split; [vm_compute; reflexivity|].
  destruct (delete_clan_spec "A" clan_A_bo) as [_ Hknown].
  destruct (Hknown (mkClan 1 [1; 2] [] [])) as [Hcall _]; [vm_compute; reflexivity|].
  rewrite Hcall. vm_compute. reflexivity.
Defined.

Lemma force_kick_spec_witness :
  find_player_id_by_name length_hash "bo" ≠ 0 ∧
  players clan_A_staffed !! "2" = Some (mkPlayer "A" "Mod") ∧
  clans clan_A_staffed !! "A" = Some (mkClan 1 [1; 2; 3; 4] [3; 2; 4] []) ∧
  ∃ s',
    force_kick length_hash "bo" clan_A_staffed
    = Val (true, "Force kicked bo from A") s' ∧
    clans s' !! "A" = Some (mkClan 1 [1; 3; 4] [3; 4] []) ∧
    players s' !! "2" = None.
Proof.
  split; [vm_compute; discriminate|].
  split; [vm_compute; reflexivity|]. split; [vm_compute; reflexivity|].
  destruct (force_kick_spec length_hash "bo" clan_A_staffed) as (_ & _ & Hrec).
  destruct (Hrec (mkPlayer "A" "Mod")) as [_ Hclan];
    [vm_compute; discriminate | vm_compute; reflexivity|].
  destruct (Hclan (mkClan 1 [1; 2; 3; 4] [3; 2; 4] [])) as [_ Hin];
    [vm_compute; reflexivity|].
  destruct Hin as (ms & mo & co & Hms & Hmo & Hco & Hcall & _).
  { cbn. apply list_elem_of_further, list_elem_of_here. }
  apply first_removed_eq in Hms. apply discarded_eq in Hmo, Hco.
  vm_compute in Hms, Hmo, Hco. subst ms mo co.
  eexists. split; [exact Hcall|]. split; vm_compute; reflexivity.
Defined.
